(** * Document ingestion and classification pipeline (src/main.py)

    A shallow embedding of the four agents (Ingestor, Extractor, Classifier,
    Router), of the mock entity-extraction service and of the orchestration
    loop of [main], followed by the properties of the pipeline.

    Conventions of the embedding:
    - a Python [str] is a [string] whose characters are the code points
      U+0000..U+00FF;
    - a Python [int] is a [Z]; a Python [float] is an exact rational [Q]
      (rounding of the binary representation is not modelled);
    - the process state that the code reads and writes (file system,
      console, clock, random generator) is the record [World], threaded
      through a state-and-exception monad [M]. *)

From Stdlib Require Import String Ascii List ZArith QArith Qround Qabs Lia Bool.
From Stdlib Require Import DecimalString.
Import ListNotations.

Local Open Scope Z_scope.
Local Open Scope string_scope.

(* ================================================================= *)
(** ** Python strings *)

Module Py.

(** [str.lower] on the code points below U+0100: A-Z, and the Latin-1
    capitals U+00C0..U+00DE except the multiplication sign U+00D7. *)
Definition lower_char (c : ascii) : ascii :=
  let n := N_of_ascii c in
  if (((65 <=? n) && (n <=? 90)) ||
      ((192 <=? n) && (n <=? 222) && negb (n =? 215)))%N
  then ascii_of_N (n + 32) else c.

Fixpoint lower (s : string) : string :=
  match s with
  | EmptyString => EmptyString
  | String c s' => String (lower_char c) (lower s')
  end.

(** [needle in hay]: some suffix of [hay] starts with [needle]. *)
Fixpoint str_in (needle hay : string) : bool :=
  String.prefix needle hay ||
  match hay with
  | EmptyString => false
  | String _ hay' => str_in needle hay'
  end.

(** [s.startswith(p)] and [s.endswith(suffix)]. *)
Definition startswith (s p : string) : bool := String.prefix p s.

Fixpoint endswith (s suffix : string) : bool :=
  (s =? suffix) ||
  match s with
  | EmptyString => false
  | String _ s' => endswith s' suffix
  end.

(** [len(s)]. *)
Definition len (s : string) : Z := Z.of_nat (String.length s).

(** [str(n)] for an integer. *)
Definition str_of_int (n : Z) : string := NilZero.string_of_int (Z.to_int n).

(** [s.rjust(width, "0")]. *)
Definition zfill (width : nat) (s : string) : string :=
  String.concat "" (repeat "0" (width - String.length s)) ++ s.

(** [sep.join(parts)]. *)
Definition join (sep : string) (parts : list string) : string :=
  String.concat sep parts.

(** [posixpath.join(a, b)]. *)
Definition path_join (a b : string) : string :=
  if startswith b "/" then b
  else if (a =? "") || endswith a "/" then a ++ b
  else a ++ "/" ++ b.

Definition squote : ascii := "039"%char.
Definition dquote : ascii := "034"%char.
Definition backslash : ascii := "092"%char.

Fixpoint has_char (c : ascii) (s : string) : bool :=
  match s with
  | EmptyString => false
  | String d s' => Ascii.eqb c d || has_char c s'
  end.

Definition hex_digit (n : N) : ascii :=
  if (n <? 10)%N then ascii_of_N (48 + n) else ascii_of_N (87 + n).

(** One character of [repr(s)], for the quote character [q] chosen. *)
Definition repr_char (q c : ascii) : string :=
  let n := N_of_ascii c in
  if Ascii.eqb c q || Ascii.eqb c backslash then String backslash (String c "")
  else if (n =? 9)%N then String backslash "t"
  else if (n =? 10)%N then String backslash "n"
  else if (n =? 13)%N then String backslash "r"
  else if ((n <? 32) || (n =? 127) || ((128 <=? n) && (n <=? 160)) || (n =? 173))%N
  then String backslash
         (String "x" (String (hex_digit (n / 16)) (String (hex_digit (n mod 16)) "")))
  else String c "".

Fixpoint repr_chars (q : ascii) (s : string) : string :=
  match s with
  | EmptyString => EmptyString
  | String c s' => repr_char q c ++ repr_chars q s'
  end.

(** [repr(s)] of a string: single quotes, unless the string holds a single
    quote and no double quote. *)
Definition repr_str (s : string) : string :=
  let q := if has_char squote s && negb (has_char dquote s) then dquote else squote in
  String q (repr_chars q s ++ String q "").

(** The values stored in the entity mapping. *)
Inductive value : Type :=
| Int (n : Z)
| Str (s : string)
| StrList (l : list string).

Definition repr (v : value) : string :=
  match v with
  | Int n => str_of_int n
  | Str s => repr_str s
  | StrList l => "[" ++ join ", " (map repr_str l) ++ "]"
  end.

(** A [dict] with string keys, in insertion order. *)
Definition dict : Type := list (string * value).

Fixpoint dict_set (k : string) (v : value) (d : dict) : dict :=
  match d with
  | [] => [(k, v)]
  | (k', v') :: d' => if k' =? k then (k, v) :: d' else (k', v') :: dict_set k v d'
  end.

Definition dict_update (d : dict) (items : dict) : dict :=
  fold_left (fun acc kv => dict_set (fst kv) (snd kv) acc) items d.

Definition dict_keys (d : dict) : list string := map fst d.

Definition dict_len (d : dict) : Z := Z.of_nat (List.length d).

(** [str(d)] of a dict. *)
Definition repr_dict (d : dict) : string :=
  "{" ++ join ", " (map (fun kv => repr_str (fst kv) ++ ": " ++ repr (snd kv)) d) ++ "}".

(** Rounding to the nearest integer, ties to even. *)
Definition round_half_even (q : Q) : Z :=
  let f := Qfloor q in
  match Qcompare (q - inject_Z f)%Q (1 # 2)%Q with
  | Lt => f
  | Gt => f + 1
  | Eq => if Z.even f then f else f + 1
  end.

(** [round(x, 2)]. *)
Definition round2 (x : Q) : Q := Qmake (round_half_even (x * 100)%Q) 100.

(** [f"{x:.2f}"]. *)
Definition format_2f (x : Q) : string :=
  let c := round_half_even (Qabs x * 100)%Q in
  (if Qlt_le_dec x 0 then "-" else "") ++
  str_of_int (c / 100) ++ "." ++ zfill 2 (str_of_int (c mod 100)).

(** Calendar date of a day number counted from 1970-01-01. *)
Definition civil_from_days (days : Z) : Z * Z * Z :=
  let z := days + 719468 in
  let era := z / 146097 in
  let doe := z - era * 146097 in
  let yoe := (doe - doe / 1460 + doe / 36524 - doe / 146096) / 365 in
  let doy := doe - (365 * yoe + yoe / 4 - yoe / 100) in
  let mp := (5 * doy + 2) / 153 in
  let d := doy - (153 * mp + 2) / 5 + 1 in
  let m := (if mp <? 10 then mp + 3 else mp - 9)%Z in
  let y := (yoe + era * 400 + (if m <=? 2 then 1 else 0))%Z in
  (y, m, d).

(** [date.strftime("%Y-%m-%d")] of a day number. *)
Definition strftime_date (days : Z) : string :=
  let '(y, m, d) := civil_from_days days in
  zfill 4 (str_of_int y) ++ "-" ++ zfill 2 (str_of_int m) ++ "-" ++ zfill 2 (str_of_int d).

Definition strftime_clock (t : Z) : string :=
  let s := t mod 86400 in
  zfill 2 (str_of_int (s / 3600)) ++ ":" ++ zfill 2 (str_of_int (s / 60 mod 60)) ++ ":" ++
  zfill 2 (str_of_int (s mod 60)).

(** [datetime.strftime("%Y-%m-%d %H:%M:%S")] of a time in seconds since the
    epoch (UTC). *)
Definition strftime_datetime (t : Z) : string :=
  strftime_date (t / 86400) ++ " " ++ strftime_clock t.

(** [datetime.isoformat()] at whole seconds. *)
Definition isoformat (t : Z) : string :=
  strftime_date (t / 86400) ++ "T" ++ strftime_clock t.

End Py.

(* ================================================================= *)
(** ** The event envelope

    The event is the dict created by [IngestorAgent.run] and updated in
    place by the later agents.  The four keys written at creation are
    fields of the record; a key that a later agent adds is an [option],
    [None] while the key is absent.  No code path deletes a key. *)

Record Metadata : Type := mkMetadata {
  size_bytes : Z;
  ingestion_time : string
}.

Record Classification : Type := mkClassification {
  document_type : string;
  confidence : Q
}.

Record RoutingInfo : Type := mkRoutingInfo {
  action_taken : string;
  routed_at : string
}.

Record Event : Type := mkEvent {
  status : string;
  filename : string;
  original_path : string;
  metadata : Metadata;
  extracted_text : option string;
  extracted_entities : option Py.dict;
  classification : option Classification;
  routing_info : option RoutingInfo;
  error_message : option string
}.

Definition set_status (v : string) (e : Event) : Event :=
  mkEvent v (filename e) (original_path e) (metadata e) (extracted_text e)
          (extracted_entities e) (classification e) (routing_info e) (error_message e).

Definition set_extracted_text (v : string) (e : Event) : Event :=
  mkEvent (status e) (filename e) (original_path e) (metadata e) (Some v)
          (extracted_entities e) (classification e) (routing_info e) (error_message e).

Definition set_extracted_entities (v : Py.dict) (e : Event) : Event :=
  mkEvent (status e) (filename e) (original_path e) (metadata e) (extracted_text e)
          (Some v) (classification e) (routing_info e) (error_message e).

Definition set_classification (v : Classification) (e : Event) : Event :=
  mkEvent (status e) (filename e) (original_path e) (metadata e) (extracted_text e)
          (extracted_entities e) (Some v) (routing_info e) (error_message e).

Definition set_routing_info (v : RoutingInfo) (e : Event) : Event :=
  mkEvent (status e) (filename e) (original_path e) (metadata e) (extracted_text e)
          (extracted_entities e) (classification e) (Some v) (error_message e).

Definition set_error_message (v : string) (e : Event) : Event :=
  mkEvent (status e) (filename e) (original_path e) (metadata e) (extracted_text e)
          (extracted_entities e) (classification e) (routing_info e) (Some v).

(* ================================================================= *)
(** ** The world: file system, console, clock, random generator *)

(** Exceptions that the modelled code can meet. *)
Inductive PyExc : Type :=
| OSError (msg : string)
| UnicodeDecodeError (msg : string)
| KeyError (key : string).

(** [isinstance(e, OSError)] and [str(e)]. *)
Definition is_OSError (e : PyExc) : bool :=
  match e with OSError _ => true | _ => false end.

Definition str_of_exc (e : PyExc) : string :=
  match e with
  | OSError msg => msg
  | UnicodeDecodeError msg => msg
  | KeyError key => Py.repr_str key
  end.

(** A file-system entry.  A regular file carries its size in bytes and what
    [open(path, "r").read()] yields: the decoded text, or the exception
    raised (permission denied, undecodable bytes). *)
Inductive Node : Type :=
| RegularFile (size : Z) (content : string + PyExc)
| Directory.

(** The file system: entries keyed by path, in directory order. *)
Definition FS : Type := list (string * Node).

(** What the process writes to standard output.  [Step] is one call of
    [print_agent_step]; [Print] a plain [print]; [PrintEvent] a [print] of
    [json.dumps(event)], recorded as the event printed. *)
Inductive Output : Type :=
| Step (timestamp agent_name message color_code : string)
| Print (text : string)
| PrintEvent (label : string) (event : Event).

(** The random generator is a tape of draws; each draw is reduced to 53
    bits, an exhausted tape yields zeros. *)
Record World : Type := mkWorld {
  fs : FS;
  console : list Output;
  clock : Z;
  rng : list Z
}.

Module Os.

Definition lookup (path : string) (f : FS) : option Node :=
  option_map snd (find (fun kv => fst kv =? path) f).

Definition remove (path : string) (f : FS) : FS :=
  filter (fun kv => negb (fst kv =? path)) f.

(** [os.path.isfile]. *)
Definition isfile (path : string) (f : FS) : bool :=
  match lookup path f with
  | Some (RegularFile _ _) => true
  | _ => false
  end.

Definition enoent (path : string) : PyExc :=
  OSError ("[Errno 2] No such file or directory: " ++ Py.repr_str path).

(** [os.path.getsize]: read from the same entry as [isfile]; it raises
    only for a path that has no entry. *)
Definition getsize (path : string) (f : FS) : Z + PyExc :=
  match lookup path f with
  | Some (RegularFile size _) => inl size
  | Some Directory => inl 4096
  | None => inr (enoent path)
  end.

(** [open(path, "r").read()]. *)
Definition read_text (path : string) (f : FS) : string + PyExc :=
  match lookup path f with
  | Some (RegularFile _ content) => content
  | Some Directory => inr (OSError ("[Errno 21] Is a directory: " ++ Py.repr_str path))
  | None => inr (enoent path)
  end.

Fixpoint strip_prefix (p s : string) : option string :=
  match p, s with
  | EmptyString, _ => Some s
  | String a p', String b s' => if Ascii.eqb a b then strip_prefix p' s' else None
  | String _ _, EmptyString => None
  end.

(** The name of the entry [path] inside directory [d], if it is one. *)
Definition entry_name (d path : string) : option string :=
  match strip_prefix (d ++ "/") path with
  | Some name =>
      if negb (name =? "") && negb (Py.str_in "/" name) then Some name else None
  | None => None
  end.

(** [os.listdir(d)]: the names of the entries kept under [d], in directory
    order.  [main] creates both directories before the loop starts, so the
    loop never lists a missing directory. *)
Definition listdir (d : string) (f : FS) : list string :=
  flat_map (fun kv => match entry_name d (fst kv) with
                      | Some name => [name]
                      | None => []
                      end) f.

(** [os.rename(src, dst)] of a regular file (POSIX): an existing regular
    file at [dst] is replaced; a directory at [dst] is an error.  Moving a
    directory is outside the model. *)
Definition rename (src dst : string) (f : FS) : FS + PyExc :=
  match lookup src f with
  | None =>
      inr (OSError ("[Errno 2] No such file or directory: " ++ Py.repr_str src ++
                    " -> " ++ Py.repr_str dst))
  | Some Directory =>
      inr (OSError ("[Errno 22] Invalid argument: " ++ Py.repr_str src ++
                    " -> " ++ Py.repr_str dst))
  | Some (RegularFile size content) =>
      match lookup dst f with
      | Some Directory =>
          inr (OSError ("[Errno 21] Is a directory: " ++ Py.repr_str src ++
                        " -> " ++ Py.repr_str dst))
      | _ =>
          if src =? dst then inl f
          else inl (remove src (remove dst f) ++ [(dst, RegularFile size content)])%list
      end
  end.

End Os.

(* ================================================================= *)
(** ** The state-and-exception monad *)

Inductive Result (A : Type) : Type :=
| Ok (a : A)
| Raise (e : PyExc).
Arguments Ok {A} a.
Arguments Raise {A} e.

Definition M (A : Type) : Type := World -> Result A * World.

Definition ret {A : Type} (a : A) : M A := fun w => (Ok a, w).

Definition bind {A B : Type} (m : M A) (k : A -> M B) : M B :=
  fun w => match m w with
           | (Ok a, w') => k a w'
           | (Raise e, w') => (Raise e, w')
           end.

Definition raise {A : Type} (e : PyExc) : M A := fun w => (Raise e, w).

(** [try: body  except <class> as e: handler(e)]: state changes made by the
    body before it raised are kept. *)
Definition try_except {A : Type} (body : M A) (catches : PyExc -> bool)
           (handler : PyExc -> M A) : M A :=
  fun w => match body w with
           | (Ok a, w') => (Ok a, w')
           | (Raise e, w') => if catches e then handler e w' else (Raise e, w')
           end.

Declare Scope monad_scope.
Delimit Scope monad_scope with monad.
Notation "x <- m ;; k" := (bind m (fun x => k))
  (at level 61, m at next level, right associativity) : monad_scope.
Notation "m ;; k" := (bind m (fun _ => k))
  (at level 61, right associativity) : monad_scope.
Local Open Scope monad_scope.

Definition get_world : M World := fun w => (Ok w, w).

Definition lift_sum {A : Type} (r : A + PyExc) : M A :=
  match r with
  | inl a => ret a
  | inr e => raise e
  end.

(** [print(...)]. *)
Definition emit (o : Output) : M unit :=
  fun w => (Ok tt, mkWorld (fs w) (console w ++ [o])%list (clock w) (rng w)).

(** [time.sleep(seconds)]. *)
Definition sleep (seconds : Z) : M unit :=
  fun w => (Ok tt, mkWorld (fs w) (console w) (clock w + seconds) (rng w)).

(** Seconds since the epoch, as read by [datetime.datetime.now()]; the
    day number read by [datetime.date.today()]. *)
Definition now : M Z := fun w => (Ok (clock w), w).
Definition today : M Z := fun w => (Ok (clock w / 86400), w).

(** One draw of the generator, in [0, 2^53). *)
Definition draw : M Z :=
  fun w => (Ok (hd 0 (rng w) mod 2 ^ 53),
            mkWorld (fs w) (console w) (clock w) (tl (rng w))).

(** [random.uniform(a, b)]: [a + (b - a) * random()]. *)
Definition uniform (a b : Q) : M Q :=
  k <- draw ;; ret (a + (b - a) * (k # 2 ^ 53))%Q.

(** [random.randint(a, b)]: an integer of [a..b]. *)
Definition randint (a b : Z) : M Z :=
  k <- draw ;; ret (a + k mod (b - a + 1)).

Definition set_fs (f : FS) : M unit :=
  fun w => (Ok tt, mkWorld f (console w) (clock w) (rng w)).

(* ================================================================= *)
(** ** Configuration and helpers (main.py, lines 10-25) *)

Definition DOCS_TO_PROCESS_DIR : string := "documents_to_process".
Definition PROCESSED_DOCS_DIR : string := "processed_documents".

Definition print_agent_step (agent_name message color_code : string) : M unit :=
  t <- now ;;
  emit (Step (Py.strftime_datetime t) agent_name message color_code).

(** The file-system calls, on the current world. *)
Definition isfile (path : string) : M bool :=
  fun w => (Ok (Os.isfile path (fs w)), w).

Definition getsize (path : string) : M Z :=
  w <- get_world ;; lift_sum (Os.getsize path (fs w)).

Definition read_file (path : string) : M string :=
  w <- get_world ;; lift_sum (Os.read_text path (fs w)).

Definition listdir (d : string) : M (list string) :=
  fun w => (Ok (Os.listdir d (fs w)), w).

Definition rename (src dst : string) : M unit :=
  w <- get_world ;; f <- lift_sum (Os.rename src dst (fs w)) ;; set_fs f.

Definition exists_path (path : string) : M bool :=
  fun w => (Ok (match Os.lookup path (fs w) with Some _ => true | None => false end), w).

Definition makedirs (path : string) : M unit :=
  w <- get_world ;; set_fs (fs w ++ [(path, Directory)])%list.

(* ================================================================= *)
(** ** The mock entity-extraction service (main.py, lines 31-77) *)

Definition ENTITY_ERROR : string :=
  "Could not determine document structure for entity extraction.".

Definition mock_llm_entity_extraction (text_content : string) : M Py.dict :=
  print_agent_step "LLM Service" "Analyzing text for entities..." "35" ;;
  sleep 2 ;;
  let text_lower := Py.lower text_content in
  let entities := [("source_text_length", Py.Int (Py.len text_content))] in
  entities <-
    (if Py.str_in "invoice" text_lower then
       n <- randint 1000 9999 ;;
       amount <- uniform 100 5000 ;;
       d <- today ;;
       ret (Py.dict_update entities
              [("InvoiceID", Py.Str ("INV-" ++ Py.str_of_int n));
               ("Amount", Py.Str ("$" ++ Py.format_2f amount));
               ("DueDate", Py.Str (Py.strftime_date (d + 30)))])
     else if Py.str_in "contract" text_lower then
       d <- today ;;
       years <- randint 1 5 ;;
       ret (Py.dict_update entities
              [("ContractingParties", Py.StrList ["ABC Corp"; "XYZ Inc."]);
               ("EffectiveDate", Py.Str (Py.strftime_date d));
               ("Term", Py.Str (Py.str_of_int years ++ " Years"))])
     else if Py.str_in "resume" text_lower then
       years <- randint 2 10 ;;
       ret (Py.dict_update entities
              [("CandidateName", Py.Str "Jane Doe");
               ("YearsOfExperience", Py.Int years);
               ("KeySkills", Py.StrList ["Python"; "GenAI"; "System Design"])])
     else
       ret (Py.dict_set "error" (Py.Str ENTITY_ERROR) entities)) ;;
  print_agent_step "LLM Service"
    ("Extraction complete. Found " ++ Py.str_of_int (Py.dict_len entities - 1) ++ " entities.")
    "35" ;;
  ret entities.

(* ================================================================= *)
(** ** The agents (main.py, lines 84-238) *)

Module IngestorAgent.

Record t : Type := mk { watch_directory : string }.

Definition init (watch_directory : string) : M t :=
  print_agent_step "Ingestor Agent"
    ("Monitoring directory: '" ++ watch_directory ++ "'") "36" ;;
  ret (mk watch_directory).

(** The body of the [for filename in os.listdir(...)] loop, over the names
    still to visit: the first regular file whose size can be read is
    returned; a file whose size cannot be read is reported and skipped. *)
Fixpoint scan (self : t) (names : list string) : M (option Event) :=
  match names with
  | [] => ret None
  | filename :: rest =>
      let file_path := Py.path_join (watch_directory self) filename in
      is_file <- isfile file_path ;;
      if is_file then
        print_agent_step "Ingestor Agent" ("New file detected: '" ++ filename ++ "'") "36" ;;
        found <-
          try_except
            (file_size <- getsize file_path ;;
             t <- now ;;
             let event :=
               mkEvent "INGESTED" filename file_path
                       (mkMetadata file_size (Py.isoformat t))
                       None None None None None in
             print_agent_step "Ingestor Agent"
               ("File size: " ++ Py.str_of_int file_size ++ " bytes. Event 'INGESTED' created.")
               "36" ;;
             ret (Some event))
            is_OSError
            (fun e =>
               print_agent_step "Ingestor Agent"
                 ("Error accessing file " ++ filename ++ ": " ++ str_of_exc e) "31" ;;
               ret None) ;;
        match found with
        | Some event => ret (Some event)
        | None => scan self rest
        end
      else scan self rest
  end.

Definition run (self : t) : M (option Event) :=
  names <- listdir (watch_directory self) ;;
  scan self names.

End IngestorAgent.

Module ExtractorAgent.

Definition placeholder (filename : string) : string :=
  "Simulated OCR content for " ++ filename ++
  ". Contains keywords: invoice, contract, or resume.".

(** The event is written only after the service has returned, so the
    handler sees the event as it was received. *)
Definition run (event : Event) : M Event :=
  print_agent_step "Extractor Agent" ("Received event for '" ++ filename event ++ "'") "36" ;;
  let file_path := original_path event in
  try_except
    (text_content <-
       (if Py.endswith file_path ".txt" then
          text <- read_file file_path ;;
          print_agent_step "Extractor Agent" "Text content successfully read from file." "36" ;;
          ret text
        else
          print_agent_step "Extractor Agent" "Simulating OCR for non-TXT file." "36" ;;
          ret (placeholder (filename event))) ;;
     sleep 1 ;;
     extracted_entities <- mock_llm_entity_extraction text_content ;;
     let event := set_status "EXTRACTED" event in
     let event := set_extracted_text text_content event in
     let event := set_extracted_entities extracted_entities event in
     print_agent_step "Extractor Agent" "Event 'EXTRACTED' created." "36" ;;
     ret event)
    (fun _ => true)
    (fun e =>
       print_agent_step "Extractor Agent" ("An error occurred: " ++ str_of_exc e) "31" ;;
       let event := set_status "EXTRACTION_FAILED" event in
       let event := set_error_message (str_of_exc e) event in
       ret event).

End ExtractorAgent.

Module ClassifierAgent.

Definition run (event : Event) : M Event :=
  print_agent_step "Classifier Agent" ("Received event for '" ++ filename event ++ "'") "36" ;;
  let text_to_classify :=
    Py.lower (match extracted_text event with Some text => text | None => "" end) in
  dc <-
    (if Py.str_in "invoice" text_to_classify then
       c <- uniform (90 # 100) (99 # 100) ;; ret ("Invoice", c)
     else if Py.str_in "contract" text_to_classify then
       c <- uniform (85 # 100) (95 # 100) ;; ret ("Contract", c)
     else if Py.str_in "resume" text_to_classify then
       c <- uniform (88 # 100) (98 # 100) ;; ret ("Resume", c)
     else
       c <- uniform (40 # 100) (60 # 100) ;; ret ("Unknown", c)) ;;
  let doc_type := fst dc in
  let confidence := snd dc in
  sleep 1 ;;
  let event := set_status "CLASSIFIED" event in
  let event := set_classification (mkClassification doc_type (Py.round2 confidence)) event in
  print_agent_step "Classifier Agent"
    ("Document classified as '" ++ doc_type ++ "' with " ++ Py.format_2f confidence ++
     " confidence.") "36" ;;
  ret event.

End ClassifierAgent.

Module RouterAgent.

Definition run (event : Event) : M Event :=
  print_agent_step "Router Agent" ("Received event for '" ++ filename event ++ "'") "36" ;;
  let doc_type :=
    match classification event with
    | Some c => document_type c
    | None => "Unknown"
    end in
  routing_action <-
    (if doc_type =? "Invoice" then
       entities <- match extracted_entities event with
                   | Some d => ret d
                   | None => raise (KeyError "extracted_entities")
                   end ;;
       ret ("Calling ERP API with invoice data: " ++ Py.repr_dict entities)
     else if doc_type =? "Contract" then
       ret "Archiving contract to legal department database."
     else if doc_type =? "Resume" then
       ret "Forwarding resume to HR Applicant Tracking System."
     else
       ret "Flagging document for manual review.") ;;
  sleep 1 ;;
  print_agent_step "Router Agent" ("Action: " ++ routing_action) "36" ;;
  let event := set_status "ROUTED" event in
  t <- now ;;
  let event := set_routing_info (mkRoutingInfo routing_action (Py.isoformat t)) event in
  print_agent_step "Router Agent" "Event 'ROUTED' created. Document processing complete." "36" ;;
  ret event.

End RouterAgent.

(* ================================================================= *)
(** ** Orchestration (main.py, lines 244-307) *)

(** Lines 254-257: the two directories are created when absent. *)
Fixpoint setup (dirs : list string) : M unit :=
  match dirs with
  | [] => ret tt
  | dir_path :: rest =>
      present <- exists_path dir_path ;;
      (if present then ret tt
       else makedirs dir_path ;;
            emit (Print ("Created directory: '" ++ dir_path ++ "'"))) ;;
      setup rest
  end.

(** Lines 280-283: the extractor, then classifier and router unless the
    status holds the word FAILED. *)
Definition run_pipeline (event : Event) : M Event :=
  event <- ExtractorAgent.run event ;;
  if negb (Py.str_in "FAILED" (status event)) then
    event <- ClassifierAgent.run event ;;
    RouterAgent.run event
  else ret event.

(** Lines 289-299: the file is renamed into the processed directory. *)
Definition archive (event : Event) : M unit :=
  try_except
    (let processed_path := Py.path_join PROCESSED_DOCS_DIR (filename event) in
     rename (original_path event) processed_path ;;
     print_agent_step "Orchestrator"
       ("Moved '" ++ filename event ++ "' to '" ++ PROCESSED_DOCS_DIR ++ "'") "34")
    is_OSError
    (fun e => print_agent_step "Orchestrator" ("Could not move file: " ++ str_of_exc e) "31").

(** Lines 272-301: what one iteration does with the event it obtained. *)
Definition process (event : Event) : M unit :=
  emit (Print "--- Processing New Document --- ") ;;
  emit (PrintEvent "Initial Event:" event) ;;
  event <- run_pipeline event ;;
  emit (PrintEvent "Final Event State:" event) ;;
  archive event ;;
  emit (Print "--- End of Processing ---").

(** Lines 269-304: one iteration of the [while True] loop. *)
Definition cycle (ingestor : IngestorAgent.t) : M unit :=
  event <- IngestorAgent.run ingestor ;;
  match event with
  | Some event => process event
  | None => ret tt
  end ;;
  sleep 5.

(** The loop, stopped by the interrupt after [cycles] iterations. *)
Fixpoint loop (ingestor : IngestorAgent.t) (cycles : nat) : M unit :=
  match cycles with
  | O => emit (Print "Processing stopped by user. Exiting.")
  | S n => cycle ingestor ;; loop ingestor n
  end.

Definition main (cycles : nat) : M unit :=
  emit (Print "--- DOCUMENT INGESTION & CLASSIFICATION PIPELINE (CLI PROTOTYPE) ---") ;;
  setup [DOCS_TO_PROCESS_DIR; PROCESSED_DOCS_DIR] ;;
  ingestor <- IngestorAgent.init DOCS_TO_PROCESS_DIR ;;
  emit (Print "Starting processing loop... (Press Ctrl+C to stop)") ;;
  loop ingestor cycles.

(* ================================================================= *)
(** ** Observing a run *)

(** The console lines written between two worlds of one run. *)
Definition output_since (w w' : World) : list Output :=
  skipn (List.length (console w)) (console w').

Definition by_agent (agent : string) (o : Output) : bool :=
  match o with
  | Step _ a _ _ => a =? agent
  | _ => false
  end.

(** Every agent announces itself on the console when it is called. *)
Definition invoked (agent : string) (w w' : World) : bool :=
  existsb (by_agent agent) (output_since w w').

(** The events printed under [label] between two worlds. *)
Definition dumped (label : string) (w w' : World) : list Event :=
  flat_map (fun o => match o with
                     | PrintEvent l e => if l =? label then [e] else []
                     | _ => []
                     end) (output_since w w').

(** No keyword of the service occurs in the text, whatever the case. *)
Definition no_keyword (text : string) : Prop :=
  Py.str_in "invoice" (Py.lower text) = false /\
  Py.str_in "contract" (Py.lower text) = false /\
  Py.str_in "resume" (Py.lower text) = false.

(** The label that the first keyword found in the text stands for, in the
    order invoice, contract, resume. *)
Definition first_keyword_label (text : string) : string :=
  match find (fun kl => Py.str_in (fst kl) (Py.lower text))
             [("invoice", "Invoice"); ("contract", "Contract"); ("resume", "Resume")] with
  | Some kl => snd kl
  | None => "Unknown"
  end.

(** The confidence range of a label. *)
Definition confidence_range (doc_type : string) : Q * Q :=
  if doc_type =? "Invoice" then (90 # 100, 99 # 100)
  else if doc_type =? "Contract" then (85 # 100, 95 # 100)
  else if doc_type =? "Resume" then (88 # 100, 98 # 100)
  else (40 # 100, 60 # 100).

(** An event as the ingestor creates it. *)
Definition fresh (e : Event) : Prop :=
  status e = "INGESTED" /\ extracted_text e = None /\ extracted_entities e = None /\
  classification e = None /\ routing_info e = None /\ error_message e = None.

(** The ingestor that [main] builds. *)
Definition the_ingestor : IngestorAgent.t := IngestorAgent.mk DOCS_TO_PROCESS_DIR.

Definition steps_of (agents : list string) (out : list Output) : Prop :=
  Forall (fun o => existsb (fun a => by_agent a o) agents = true) out.

(** What step 1 of the extractor resolves the source to: the text read
    from a .txt file, the placeholder for any other name, or the exception
    met while reading. *)
Definition source_text (ev : Event) (f : FS) : string + PyExc :=
  if Py.endswith (original_path ev) ".txt"
  then Os.read_text (original_path ev) f
  else inl (ExtractorAgent.placeholder (filename ev)).

Definition extracted (text : string) (d : Py.dict) (ev : Event) : Event :=
  set_extracted_entities d (set_extracted_text text (set_status "EXTRACTED" ev)).

Definition extraction_failed (e : PyExc) (ev : Event) : Event :=
  set_error_message (str_of_exc e) (set_status "EXTRACTION_FAILED" ev).

(** The value that [random.uniform(lo, hi)] returns in world [w]. *)
Definition drawn (lo hi : Q) (w : World) : Q :=
  (lo + (hi - lo) * ((hd 0%Z (rng w) mod 2 ^ 53)%Z # 2 ^ 53))%Q.

Definition classified (doc_type : string) (x : Q) (ev : Event) : Event :=
  set_classification (mkClassification doc_type (Py.round2 x)) (set_status "CLASSIFIED" ev).

Definition text_of (ev : Event) : string :=
  match extracted_text ev with
  | Some text => text
  | None => ""
  end.

Definition doc_type_of (ev : Event) : string :=
  match classification ev with
  | Some c => document_type c
  | None => "Unknown"
  end.

Definition routed (action : string) (t : Z) (ev : Event) : Event :=
  set_routing_info (mkRoutingInfo action (Py.isoformat t)) (set_status "ROUTED" ev).

Definition MANUAL_REVIEW : string := "Flagging document for manual review.".
Definition ERP_PREFIX : string := "Calling ERP API with invoice data: ".

(** The three types that the router has an action of their own for. *)
Definition mapped (doc_type : string) : bool :=
  (doc_type =? "Invoice") || (doc_type =? "Contract") || (doc_type =? "Resume").

(** How the event that leaves the pipeline relates to the event that
    entered it, given the file system read by the extractor. *)
Definition pipeline_outcome (ev ev' : Event) (f : FS) : Prop :=
  match source_text ev f with
  | inr e => ev' = extraction_failed e ev
  | inl text =>
      exists d x action t,
        ev' = routed action t (classified (first_keyword_label text) x (extracted text d ev))
  end.

(** The console lines of one call of [process]. *)
Definition process_lines (ev ev' : Event) (pipe : list Output) (arch : Output) : list Output :=
  ([Print "--- Processing New Document --- "; PrintEvent "Initial Event:" ev] ++ pipe ++
   [PrintEvent "Final Event State:" ev'; arch; Print "--- End of Processing ---"])%list.

(* ================================================================= *)
(** ** Notions used by the statements, and sample worlds *)

Definition denied : PyExc :=
  OSError "[Errno 13] Permission denied: 'documents_to_process/c.txt'".

Definition locked_world : World := mkWorld
  [("documents_to_process", Directory); ("processed_documents", Directory);
   ("documents_to_process/c.txt", RegularFile 11 (inr denied))]
  [] 1793734923 [].

Definition locked_event : Event :=
  mkEvent "INGESTED" "c.txt" "documents_to_process/c.txt"
          (mkMetadata 11 "2026-11-03T19:42:03") None None None None None.

Definition invoice_entities (invoice_id amount : string) : Py.dict :=
  [("source_text_length", Py.Int 29); ("InvoiceID", Py.Str invoice_id);
   ("Amount", Py.Str amount); ("DueDate", Py.Str "2026-12-03")].

Definition invoice_event (invoice_id amount : string) : Event :=
  mkEvent "CLASSIFIED" "a.txt" "documents_to_process/a.txt"
          (mkMetadata 29 "2026-11-03T19:42:03")
          (Some "Invoice #1234, due next month")
          (Some (invoice_entities invoice_id amount))
          (Some (mkClassification "Invoice" (90 # 100))) None None.

Definition contract_event (name : string) : Event :=
  mkEvent "CLASSIFIED" name ("documents_to_process/" ++ name)
          (mkMetadata 30 "2026-11-03T19:42:03")
          (Some "Service contract")
          (Some [("source_text_length", Py.Int 16)])
          (Some (mkClassification "Contract" (90 # 100))) None None.

Definition quiet_world : World := mkWorld [] [] 1793734923 [].

Definition pdf_event : Event :=
  mkEvent "INGESTED" "d.pdf" "documents_to_process/d.pdf"
          (mkMetadata 11 "2026-11-03T19:42:03") None None None None None.

(** The events bound to [event] while lines 280-283 run on [ev]. *)
Definition stages_of (ev : Event) (w : World) (history : list Event) : Prop :=
  exists e1 w1,
    ExtractorAgent.run ev w = (Ok e1, w1) /\
    if negb (Py.str_in "FAILED" (status e1))
    then exists e2 w2 e3 w3,
           ClassifierAgent.run e1 w1 = (Ok e2, w2) /\
           RouterAgent.run e2 w2 = (Ok e3, w3) /\
           history = [ev; e1; e2; e3]
    else history = [ev; e1].

Definition routed_exit (e : Event) : Prop :=
  status e = "ROUTED" /\ classification e <> None /\ routing_info e <> None.

Definition failed_exit (e : Event) : Prop :=
  status e = "EXTRACTION_FAILED" /\ error_message e <> None.

Definition entities_invariant (e : Event) : Prop :=
  (In (status e) ["EXTRACTED"; "CLASSIFIED"; "ROUTED"] -> extracted_entities e <> None) /\
  (status e = "EXTRACTION_FAILED" ->
   error_message e <> None /\ extracted_entities e = None).

(** The regular files of the intake directory, in listing order. *)
Definition intake_files (f : FS) : list string :=
  filter (fun name => Os.isfile (Py.path_join DOCS_TO_PROCESS_DIR name) f)
         (Os.listdir DOCS_TO_PROCESS_DIR f).

Definition locked_ingested : World := snd (IngestorAgent.run the_ingestor locked_world).

(** A world whose intake directory holds one invoice, and the stages up to
    the classifier run on it. *)
Definition invoice_world (tape : list Z) : World := mkWorld
  [("documents_to_process", Directory); ("processed_documents", Directory);
   ("documents_to_process/a.txt", RegularFile 29 (inl "Invoice #1234, due next month"))]
  [] 1793734923 tape.

Definition up_to_classifier : M (option Event) :=
  found <- IngestorAgent.run the_ingestor ;;
  match found with
  | Some ev =>
      e1 <- ExtractorAgent.run ev ;;
      e2 <- ClassifierAgent.run e1 ;;
      ret (Some e2)
  | None => ret None
  end.

(* ================================================================= *)
(** ** Notions used by the further properties *)

(** The field names that the service synthesizes for a label. *)
Definition fields_of (label : string) : list string :=
  if label =? "Invoice" then ["InvoiceID"; "Amount"; "DueDate"]
  else if label =? "Contract" then ["ContractingParties"; "EffectiveDate"; "Term"]
  else if label =? "Resume" then ["CandidateName"; "YearsOfExperience"; "KeySkills"]
  else ["error"].

(** The mapping that the service builds for a label, given the values it
    drew: an invoice number, an amount, a number of years, and the day. *)
Definition entities_for (label : string) (text : string) (n : Z) (amount : Q) (day : Z)
  : Py.dict :=
  ("source_text_length", Py.Int (Py.len text)) ::
  (if label =? "Invoice" then
     [("InvoiceID", Py.Str ("INV-" ++ Py.str_of_int n));
      ("Amount", Py.Str ("$" ++ Py.format_2f amount));
      ("DueDate", Py.Str (Py.strftime_date (day + 30)))]
   else if label =? "Contract" then
     [("ContractingParties", Py.StrList ["ABC Corp"; "XYZ Inc."]);
      ("EffectiveDate", Py.Str (Py.strftime_date day));
      ("Term", Py.Str (Py.str_of_int n ++ " Years"))]
   else if label =? "Resume" then
     [("CandidateName", Py.Str "Jane Doe");
      ("YearsOfExperience", Py.Int n);
      ("KeySkills", Py.StrList ["Python"; "GenAI"; "System Design"])]
   else [("error", Py.Str ENTITY_ERROR)]).

(** The bounds of the integer drawn for a label. *)
Definition drawn_int_range (label : string) : Z * Z :=
  if label =? "Invoice" then (1000, 9999)
  else if label =? "Contract" then (1, 5)
  else if label =? "Resume" then (2, 10)
  else (0, 0).

Definition a_event : Event :=
  mkEvent "INGESTED" "a.txt" "documents_to_process/a.txt"
          (mkMetadata 29 "2026-11-03T19:42:03") None None None None None.

(** An event classified as Invoice that lacks the entities key. *)
Definition bare_invoice_event : Event :=
  mkEvent "CLASSIFIED" "a.txt" "documents_to_process/a.txt"
          (mkMetadata 29 "2026-11-03T19:42:03")
          (Some "Invoice #1234, due next month") None
          (Some (mkClassification "Invoice" (90 # 100))) None None.

(** The events printed under [label] in a list of console lines. *)
Definition dumps (label : string) (out : list Output) : list Event :=
  flat_map (fun o => match o with
                     | PrintEvent l e => if l =? label then [e] else []
                     | _ => []
                     end) out.

Definition intake_path (name : string) : string := Py.path_join DOCS_TO_PROCESS_DIR name.
Definition archive_path (name : string) : string := Py.path_join PROCESSED_DOCS_DIR name.

(** No directory stands where a file of the intake directory is to go. *)
Definition no_collision (f : FS) : Prop :=
  forall name, In name (intake_files f) -> Os.lookup (archive_path name) f <> Some Directory.

(** A world with two files waiting: a readable invoice and a file that
    cannot be read. *)
Definition backlog_world : World := mkWorld
  [("documents_to_process", Directory); ("processed_documents", Directory);
   ("documents_to_process/a.txt", RegularFile 29 (inl "Invoice #1234, due next month"));
   ("documents_to_process/c.txt", RegularFile 11 (inr denied))]
  [] 1793734923 [].

(** The same, with a directory standing where a.txt is to go. *)
Definition blocked_world : World := mkWorld
  [("documents_to_process", Directory); ("processed_documents", Directory);
   ("processed_documents/a.txt", Directory);
   ("documents_to_process/a.txt", RegularFile 29 (inl "Invoice #1234, due next month"));
   ("documents_to_process/c.txt", RegularFile 11 (inr denied))]
  [] 1793734923 [].

(** The seconds that the pipeline sleeps on an event: one in the
    extractor, two in the service, one each in classifier and router, and
    none when resolving the source raises. *)
Definition pipeline_seconds (ev : Event) (f : FS) : Z :=
  match source_text ev f with
  | inl _ => 5
  | inr _ => 0
  end.


(* ================================================================= *)
(** ** Running the monad *)

Ltac run_monad :=
  cbv beta iota zeta delta
    [bind ret raise try_except emit sleep now today draw uniform randint
     get_world lift_sum set_fs print_agent_step isfile getsize read_file
     listdir rename exists_path makedirs];
  cbn [fs console clock rng fst snd].

Lemma output_since_app (w w' : World) (out : list Output) :
  console w' = (console w ++ out)%list -> output_since w w' = out.
Proof.
  intros H. unfold output_since. rewrite H.
  rewrite skipn_app, skipn_all, Nat.sub_diag. reflexivity.
Qed.

Lemma output_since_mk (w : World) (f : FS) (out : list Output) (c : Z) (r : list Z) :
  output_since w (mkWorld f (console w ++ out)%list c r) = out.
Proof. apply output_since_app. reflexivity. Qed.

(* ================================================================= *)
(** ** The entity-extraction service *)

Lemma service_no_keyword (text : string) (w : World) :
  no_keyword text ->
  mock_llm_entity_extraction text w =
  (Ok [("source_text_length", Py.Int (Py.len text)); ("error", Py.Str ENTITY_ERROR)],
   mkWorld (fs w)
     (console w ++
      [Step (Py.strftime_datetime (clock w)) "LLM Service"
            "Analyzing text for entities..." "35";
       Step (Py.strftime_datetime (clock w + 2)) "LLM Service"
            "Extraction complete. Found 1 entities." "35"])%list
     (clock w + 2) (rng w)).
Proof.
  intros (Hi & Hc & Hr). unfold mock_llm_entity_extraction.
  rewrite Hi, Hc, Hr. run_monad. rewrite <- app_assoc. reflexivity.
Qed.

Lemma steps_of_app (agents : list string) (out1 out2 : list Output) :
  steps_of agents out1 -> steps_of agents out2 -> steps_of agents (out1 ++ out2).
Proof. unfold steps_of. intros H1 H2. apply Forall_app. split; assumption. Qed.

Lemma steps_of_weaken (agents agents' : list string) (out : list Output) :
  incl agents agents' -> steps_of agents out -> steps_of agents' out.
Proof.
  unfold steps_of. intros Hincl H. eapply Forall_impl; [|exact H].
  intros o Ho. apply existsb_exists in Ho. destruct Ho as (a & Ha & Hb).
  apply existsb_exists. exists a. split; [apply Hincl; exact Ha | exact Hb].
Qed.

(** The service always returns a mapping, writes only its own lines and
    leaves the file system alone. *)
Lemma service_total (text : string) (w : World) :
  exists d out c r,
    mock_llm_entity_extraction text w =
      (Ok d, mkWorld (fs w) (console w ++ out)%list c r) /\
    steps_of ["LLM Service"] out.
Proof.
  unfold mock_llm_entity_extraction.
  destruct (Py.str_in "invoice" (Py.lower text));
    [|destruct (Py.str_in "contract" (Py.lower text));
      [|destruct (Py.str_in "resume" (Py.lower text))]];
    run_monad; rewrite <- app_assoc;
    (do 4 eexists; split; [reflexivity|]);
    repeat constructor.
Qed.

(* ================================================================= *)
(** ** The extractor *)

Lemma extractor_ok (ev : Event) (w : World) (text : string) :
  source_text ev (fs w) = inl text ->
  exists d out c r,
    ExtractorAgent.run ev w =
      (Ok (extracted text d ev), mkWorld (fs w) (console w ++ out)%list c r) /\
    steps_of ["Extractor Agent"; "LLM Service"] out /\
    (exists w1, fst (mock_llm_entity_extraction text w1) = Ok d).
Proof.
  unfold source_text, ExtractorAgent.run. intros H.
  destruct (Py.endswith (original_path ev) ".txt").
  - run_monad. rewrite H. run_monad.
    match goal with
    | |- context [mock_llm_entity_extraction ?t ?w1] =>
        destruct (service_total t w1) as (d & out & c & r & E & HF)
    end.
    rewrite E. run_monad. rewrite <- !app_assoc.
    exists d. eexists. exists c, r. split; [reflexivity|]. split.
    + repeat (apply Forall_cons; [reflexivity|]). apply steps_of_app.
      * eapply steps_of_weaken; [|exact HF]. intros a [<-|[]]. right. left. reflexivity.
      * repeat constructor.
    + eexists. rewrite E. reflexivity.
  - injection H as <-. run_monad.
    match goal with
    | |- context [mock_llm_entity_extraction ?t ?w1] =>
        destruct (service_total t w1) as (d & out & c & r & E & HF)
    end.
    rewrite E. run_monad. rewrite <- !app_assoc.
    exists d. eexists. exists c, r. split; [reflexivity|]. split.
    + repeat (apply Forall_cons; [reflexivity|]). apply steps_of_app.
      * eapply steps_of_weaken; [|exact HF]. intros a [<-|[]]. right. left. reflexivity.
      * repeat constructor.
    + eexists. rewrite E. reflexivity.
Qed.

Lemma extractor_failed (ev : Event) (w : World) (e : PyExc) :
  source_text ev (fs w) = inr e ->
  ExtractorAgent.run ev w =
    (Ok (extraction_failed e ev),
     mkWorld (fs w)
       (console w ++
        [Step (Py.strftime_datetime (clock w)) "Extractor Agent"
              ("Received event for '" ++ filename ev ++ "'") "36";
         Step (Py.strftime_datetime (clock w)) "Extractor Agent"
              ("An error occurred: " ++ str_of_exc e) "31"])%list
       (clock w) (rng w)).
Proof.
  unfold source_text, ExtractorAgent.run. intros H.
  destruct (Py.endswith (original_path ev) ".txt"); [|discriminate].
  run_monad. rewrite H. run_monad. rewrite <- app_assoc. reflexivity.
Qed.

(* ================================================================= *)
(** ** The classifier *)

Lemma round_half_even_bounds (q : Q) (a b : Z) :
  (inject_Z a <= q)%Q -> (q <= inject_Z b)%Q ->
  a <= Py.round_half_even q <= b.
Proof.
  intros Ha Hb. unfold Py.round_half_even.
  assert (Hfa : a <= Qfloor q).
  { rewrite <- (Qfloor_Z a). apply Qfloor_resp_le. exact Ha. }
  assert (Hfb : Qfloor q <= b).
  { rewrite <- (Qfloor_Z b). apply Qfloor_resp_le. exact Hb. }
  destruct (Z.eq_dec (Qfloor q) b) as [E|E].
  - assert (Hq : (q - inject_Z (Qfloor q) < 1 # 2)%Q).
    { rewrite E. apply Qle_lt_trans with (y := 0%Q); [|reflexivity].
      apply Qle_minus_iff in Hb. 
      setoid_replace (q - inject_Z b)%Q with (- (inject_Z b + - q))%Q by ring.
      setoid_replace 0%Q with (- 0)%Q by ring. apply Qopp_le_compat. exact Hb. }
    destruct (Qcompare (q - inject_Z (Qfloor q)) (1 # 2)) eqn:C.
    + apply Qeq_alt in C. rewrite C in Hq. exfalso. exact (Qlt_irrefl _ Hq).
    + lia.
    + apply Qgt_alt in C. exfalso. exact (Qlt_irrefl _ (Qlt_trans _ _ _ Hq C)).
  - destruct (Qcompare _ _); [destruct (Z.even _)| |]; lia.
Qed.

Lemma uniform_bounds (a b : Q) (k : Z) :
  (a <= b)%Q -> 0 <= k < 2 ^ 53 ->
  (a <= a + (b - a) * (k # 2 ^ 53))%Q /\ (a + (b - a) * (k # 2 ^ 53) <= b)%Q.
Proof.
  intros Hab Hk.
  assert (H0 : (0 <= k # 2 ^ 53)%Q) by (unfold Qle; cbn; lia).
  assert (H1 : (k # 2 ^ 53 <= 1)%Q).
  { unfold Qle. cbn [Qnum Qden]. change (Z.pos (2 ^ 53)) with (2 ^ 53). lia. }
  assert (Hd : (0 <= b - a)%Q) by (apply Qle_minus_iff in Hab; exact Hab).
  split.
  - rewrite <- (Qplus_0_r a) at 1. apply Qplus_le_r. apply Qmult_le_0_compat; assumption.
  - setoid_replace b with (a + (b - a) * 1)%Q at 2 by ring.
    apply Qplus_le_r. rewrite !(Qmult_comm (b - a)).
    apply Qmult_le_compat_r; assumption.
Qed.

Lemma round2_bounds (x : Q) (a b : Z) :
  (a # 100 <= x)%Q -> (x <= b # 100)%Q ->
  (a # 100 <= Py.round2 x)%Q /\ (Py.round2 x <= b # 100)%Q.
Proof.
  intros Ha Hb. unfold Py.round2.
  assert (H : a <= Py.round_half_even (x * 100) <= b).
  { apply round_half_even_bounds.
    - setoid_replace (inject_Z a) with ((a # 100) * 100)%Q
        by (unfold Qeq; cbn; lia).
      apply Qmult_le_compat_r; [exact Ha | discriminate].
    - setoid_replace (inject_Z b) with ((b # 100) * 100)%Q
        by (unfold Qeq; cbn; lia).
      apply Qmult_le_compat_r; [exact Hb | discriminate]. }
  unfold Qle. cbn [Qnum Qden]. lia.
Qed.

Lemma classifier_run (ev : Event) (w : World) :
  let label := first_keyword_label (text_of ev) in
  let x := drawn (fst (confidence_range label)) (snd (confidence_range label)) w in
  ClassifierAgent.run ev w =
    (Ok (classified label x ev),
     mkWorld (fs w)
       (console w ++
        [Step (Py.strftime_datetime (clock w)) "Classifier Agent"
              ("Received event for '" ++ filename ev ++ "'") "36";
         Step (Py.strftime_datetime (clock w + 1)) "Classifier Agent"
              ("Document classified as '" ++ label ++ "' with " ++ Py.format_2f x ++
               " confidence.") "36"])%list
       (clock w + 1) (tl (rng w))).
Proof.
  unfold ClassifierAgent.run, first_keyword_label, text_of, drawn.
  cbn [find fst snd].
  destruct (Py.str_in "invoice" _);
    [|destruct (Py.str_in "contract" _); [|destruct (Py.str_in "resume" _)]];
    cbn [fst snd]; run_monad; rewrite <- app_assoc; reflexivity.
Qed.

(* ================================================================= *)
(** ** The router *)

Lemma router_run_other (ev : Event) (w : World) :
  (doc_type_of ev =? "Invoice") = false ->
  exists action,
    RouterAgent.run ev w =
      (Ok (routed action (clock w + 1) ev),
       mkWorld (fs w)
         (console w ++
          [Step (Py.strftime_datetime (clock w)) "Router Agent"
                ("Received event for '" ++ filename ev ++ "'") "36";
           Step (Py.strftime_datetime (clock w + 1)) "Router Agent"
                ("Action: " ++ action) "36";
           Step (Py.strftime_datetime (clock w + 1)) "Router Agent"
                "Event 'ROUTED' created. Document processing complete." "36"])%list
         (clock w + 1) (rng w)) /\
    action =
      (if doc_type_of ev =? "Contract"
       then "Archiving contract to legal department database."
       else if doc_type_of ev =? "Resume"
            then "Forwarding resume to HR Applicant Tracking System."
            else MANUAL_REVIEW).
Proof.
  intros H. unfold RouterAgent.run. fold (doc_type_of ev). rewrite H.
  destruct (doc_type_of ev =? "Contract"); [|destruct (doc_type_of ev =? "Resume")];
    run_monad; rewrite <- !app_assoc; eexists; split; reflexivity.
Qed.

Lemma router_run_invoice (ev : Event) (w : World) (d : Py.dict) :
  (doc_type_of ev =? "Invoice") = true ->
  extracted_entities ev = Some d ->
  RouterAgent.run ev w =
    (Ok (routed (ERP_PREFIX ++ Py.repr_dict d) (clock w + 1) ev),
     mkWorld (fs w)
       (console w ++
        [Step (Py.strftime_datetime (clock w)) "Router Agent"
              ("Received event for '" ++ filename ev ++ "'") "36";
         Step (Py.strftime_datetime (clock w + 1)) "Router Agent"
              ("Action: " ++ ERP_PREFIX ++ Py.repr_dict d) "36";
         Step (Py.strftime_datetime (clock w + 1)) "Router Agent"
              "Event 'ROUTED' created. Document processing complete." "36"])%list
       (clock w + 1) (rng w)).
Proof.
  intros H Hd. unfold RouterAgent.run. fold (doc_type_of ev). rewrite H, Hd.
  run_monad. rewrite <- !app_assoc. reflexivity.
Qed.

(** The router raises only for an Invoice event without entities. *)
Lemma router_run_ok (ev : Event) (w : World) :
  ((doc_type_of ev =? "Invoice") = true -> extracted_entities ev <> None) ->
  exists action out,
    RouterAgent.run ev w =
      (Ok (routed action (clock w + 1) ev),
       mkWorld (fs w) (console w ++ out)%list (clock w + 1) (rng w)) /\
    steps_of ["Router Agent"] out /\ out <> [].
Proof.
  intros H. destruct (doc_type_of ev =? "Invoice") eqn:E.
  - destruct (extracted_entities ev) as [d|] eqn:Ed; [|exfalso; apply H; reflexivity].
    rewrite (router_run_invoice ev w d E Ed).
    do 2 eexists. split; [reflexivity|]. split; [repeat constructor | discriminate].
  - destruct (router_run_other ev w E) as (action & R & _). rewrite R.
    do 2 eexists. split; [reflexivity|]. split; [repeat constructor | discriminate].
Qed.

(* ================================================================= *)
(** ** The ingestor and the paths it builds *)

Lemma isfile_getsize (path : string) (f : FS) :
  Os.isfile path f = true -> exists size, Os.getsize path f = inl size.
Proof.
  unfold Os.isfile, Os.getsize.
  destruct (Os.lookup path f) as [[size content|]|]; try discriminate.
  intros _. exists size. reflexivity.
Qed.

Lemma scan_spec (self : IngestorAgent.t) (names : list string) (w : World) :
  exists r out,
    IngestorAgent.scan self names w =
      (Ok r, mkWorld (fs w) (console w ++ out)%list (clock w) (rng w)) /\
    steps_of ["Ingestor Agent"] out /\
    match r with
    | Some ev =>
        fresh ev /\ In (filename ev) names /\
        original_path ev = Py.path_join (IngestorAgent.watch_directory self) (filename ev) /\
        Os.isfile (original_path ev) (fs w) = true
    | None =>
        forall name, In name names ->
          Os.isfile (Py.path_join (IngestorAgent.watch_directory self) name) (fs w) = false
    end.
Proof.
  induction names as [|name rest IH].
  - exists None, []. cbn [IngestorAgent.scan]. run_monad. rewrite app_nil_r.
    destruct w. repeat split; [constructor | intros ? []].
  - cbn [IngestorAgent.scan]. run_monad.
    destruct (Os.isfile (Py.path_join (IngestorAgent.watch_directory self) name) (fs w)) eqn:E.
    + destruct (isfile_getsize _ _ E) as (size & Hs). rewrite Hs. run_monad.
      rewrite <- !app_assoc. eexists (Some _), _. split; [reflexivity|].
      split; [repeat constructor|]. cbn [filename original_path].
      split; [repeat split|]. split; [left; reflexivity|]. split; [reflexivity | exact E].
    + destruct IH as (r & out & R & HF & HR). 
      change (IngestorAgent.scan self rest w = (Ok r, mkWorld (fs w) (console w ++ out)%list (clock w) (rng w))) in R.
      rewrite R.
      exists r, out. split; [reflexivity|]. split; [exact HF|].
      destruct r as [ev|].
      * destruct HR as (H1 & H2 & H3 & H4). repeat split; try assumption; try apply H1.
        right. exact H2.
      * intros n [<-|Hn]; [exact E | apply HR; exact Hn].
Qed.

Lemma ingestor_run (self : IngestorAgent.t) (w : World) :
  exists r out,
    IngestorAgent.run self w =
      (Ok r, mkWorld (fs w) (console w ++ out)%list (clock w) (rng w)) /\
    steps_of ["Ingestor Agent"] out /\
    match r with
    | Some ev =>
        fresh ev /\
        In (filename ev) (Os.listdir (IngestorAgent.watch_directory self) (fs w)) /\
        original_path ev = Py.path_join (IngestorAgent.watch_directory self) (filename ev) /\
        Os.isfile (original_path ev) (fs w) = true
    | None =>
        forall name, In name (Os.listdir (IngestorAgent.watch_directory self) (fs w)) ->
          Os.isfile (Py.path_join (IngestorAgent.watch_directory self) name) (fs w) = false
    end.
Proof.
  unfold IngestorAgent.run. run_monad. apply scan_spec.
Qed.

Lemma str_in_startswith (p s : string) :
  Py.str_in p s = false -> Py.startswith s p = false.
Proof.
  unfold Py.startswith. destruct s; cbn [Py.str_in]; intros H;
    apply orb_false_iff in H; apply H.
Qed.

Lemma listdir_names (d name : string) (f : FS) :
  In name (Os.listdir d f) -> Py.str_in "/" name = false /\ name <> "".
Proof.
  unfold Os.listdir. intros H. apply in_flat_map in H.
  destruct H as (kv & _ & H). unfold Os.entry_name in H.
  destruct (Os.strip_prefix (d ++ "/") (fst kv)) as [n|]; [|destruct H].
  destruct (n =? "") eqn:En; cbn [negb andb] in H; [destruct H|].
  destruct (Py.str_in "/" n) eqn:Es; cbn [negb] in H; [destruct H|].
  destruct H as [<-|[]]. split; [exact Es|].
  intros ->. discriminate.
Qed.

Lemma docs_path (name : string) :
  Py.str_in "/" name = false ->
  Py.path_join DOCS_TO_PROCESS_DIR name = "documents_to_process/" ++ name.
Proof.
  intros H. unfold Py.path_join. rewrite (str_in_startswith _ _ H). reflexivity.
Qed.

Lemma processed_path (name : string) :
  Py.str_in "/" name = false ->
  Py.path_join PROCESSED_DOCS_DIR name = "processed_documents/" ++ name.
Proof.
  intros H. unfold Py.path_join. rewrite (str_in_startswith _ _ H). reflexivity.
Qed.

Lemma docs_path_endswith (name : string) :
  Py.endswith (Py.path_join DOCS_TO_PROCESS_DIR name) ".txt" = Py.endswith name ".txt".
Proof.
  unfold Py.path_join. destruct (Py.startswith name "/"); reflexivity.
Qed.

Lemma ingested (w0 w : World) (ev : Event) :
  IngestorAgent.run the_ingestor w0 = (Ok (Some ev), w) ->
  fresh ev /\ fs w = fs w0 /\
  In (filename ev) (Os.listdir DOCS_TO_PROCESS_DIR (fs w0)) /\
  Py.str_in "/" (filename ev) = false /\
  original_path ev = "documents_to_process/" ++ filename ev /\
  Os.isfile (original_path ev) (fs w) = true.
Proof.
  intros H. destruct (ingestor_run the_ingestor w0) as (r & out & R & _ & HR).
  rewrite R in H. injection H as -> <-. cbn [fs].
  destruct HR as (Hf & Hin & Hp & Hi). cbn [the_ingestor IngestorAgent.watch_directory] in *.
  destruct (listdir_names _ _ _ Hin) as (Hs & _).
  repeat split; try assumption; try apply Hf.
  rewrite Hp. apply docs_path. exact Hs.
Qed.

(* ================================================================= *)
(** ** Renaming and archival *)

Lemma lookup_remove (p q : string) (f : FS) :
  Os.lookup p (Os.remove q f) = if p =? q then None else Os.lookup p f.
Proof.
  unfold Os.lookup, Os.remove. induction f as [|[k n] f IH]; cbn [filter find fst].
  - destruct (p =? q); reflexivity.
  - destruct (k =? q) eqn:Ekq; cbn [negb find fst].
    + rewrite IH. apply String.eqb_eq in Ekq. subst k.
      destruct (p =? q) eqn:Epq; [reflexivity|].
      rewrite String.eqb_sym, Epq. reflexivity.
    + destruct (k =? p) eqn:Ekp.
      * apply String.eqb_eq in Ekp. subst k. rewrite Ekq. reflexivity.
      * exact IH.
Qed.

Lemma lookup_app (p : string) (f g : FS) :
  Os.lookup p (f ++ g)%list =
  match Os.lookup p f with Some n => Some n | None => Os.lookup p g end.
Proof.
  unfold Os.lookup. induction f as [|[k n] f IH]; cbn [app find fst]; [reflexivity|].
  destruct (k =? p); [reflexivity | exact IH].
Qed.

Lemma rename_error (src dst : string) (f : FS) (e : PyExc) :
  Os.rename src dst f = inr e -> is_OSError e = true.
Proof.
  unfold Os.rename.
  destruct (Os.lookup src f) as [[size content|]|];
    [destruct (Os.lookup dst f) as [[? ?|]|]; [destruct (src =? dst)| |destruct (src =? dst)]| |];
    intros H; try discriminate; injection H as <-; reflexivity.
Qed.

Lemma rename_moves (src dst : string) (f f' : FS) :
  src <> dst -> Os.rename src dst f = inl f' ->
  Os.lookup src f' = None /\ Os.lookup dst f' = Os.lookup src f /\
  forall p, p <> src -> p <> dst -> Os.lookup p f' = Os.lookup p f.
Proof.
  intros Hne. unfold Os.rename.
  destruct (Os.lookup src f) as [[size content|]|] eqn:Es; try discriminate.
  apply String.eqb_neq in Hne.
  assert (E : Os.lookup dst f <> Some Directory ->
              forall g, g = (Os.remove src (Os.remove dst f) ++ [(dst, RegularFile size content)])%list ->
              Os.lookup src g = None /\ Os.lookup dst g = Some (RegularFile size content) /\
              forall p, p <> src -> p <> dst -> Os.lookup p g = Os.lookup p f).
  { intros _ g ->.
    assert (L : forall p, Os.lookup p [(dst, RegularFile size content)] =
                          if dst =? p then Some (RegularFile size content) else None).
    { intros p. unfold Os.lookup. cbn [find fst]. destruct (dst =? p); reflexivity. }
    split; [|split].
    - rewrite lookup_app, lookup_remove, String.eqb_refl, L.
      rewrite String.eqb_sym, Hne. reflexivity.
    - rewrite lookup_app, !lookup_remove, String.eqb_refl, L, String.eqb_refl.
      rewrite String.eqb_sym, Hne. reflexivity.
    - intros p Hp1 Hp2. rewrite lookup_app, !lookup_remove, L.
      apply String.eqb_neq in Hp1, Hp2. rewrite Hp1, Hp2.
      rewrite String.eqb_sym, Hp2. destruct (Os.lookup p f); reflexivity. }
  destruct (Os.lookup dst f) as [[? ?|]|] eqn:Ed; try discriminate;
    rewrite Hne; intros H; injection H as <-; apply E; try discriminate; reflexivity.
Qed.

Lemma rename_result (src dst : string) (f : FS) :
  Os.isfile src f = true ->
  match Os.lookup dst f with
  | Some Directory => exists e, Os.rename src dst f = inr e
  | _ => exists f', Os.rename src dst f = inl f'
  end.
Proof.
  unfold Os.isfile, Os.rename.
  destruct (Os.lookup src f) as [[size content|]|]; try discriminate. intros _.
  destruct (Os.lookup dst f) as [[? ?|]|]; try destruct (src =? dst); eexists; reflexivity.
Qed.

Lemma archive_run (ev : Event) (w : World) :
  archive ev w =
  match Os.rename (original_path ev) (Py.path_join PROCESSED_DOCS_DIR (filename ev)) (fs w) with
  | inl f =>
      (Ok tt,
       mkWorld f
         (console w ++
          [Step (Py.strftime_datetime (clock w)) "Orchestrator"
                ("Moved '" ++ filename ev ++ "' to '" ++ PROCESSED_DOCS_DIR ++ "'") "34"])%list
         (clock w) (rng w))
  | inr e =>
      (Ok tt,
       mkWorld (fs w)
         (console w ++
          [Step (Py.strftime_datetime (clock w)) "Orchestrator"
                ("Could not move file: " ++ str_of_exc e) "31"])%list
         (clock w) (rng w))
  end.
Proof.
  unfold archive. run_monad.
  destruct (Os.rename _ _ (fs w)) as [f|e] eqn:E; run_monad; [reflexivity|].
  rewrite (rename_error _ _ _ _ E). reflexivity.
Qed.

(* ================================================================= *)
(** ** The pipeline and one iteration of the loop *)

Lemma failed_status_check (e : PyExc) (ev : Event) :
  negb (Py.str_in "FAILED" (status (extraction_failed e ev))) = false.
Proof. reflexivity. Qed.

Lemma extracted_status_check (text : string) (d : Py.dict) (ev : Event) :
  negb (Py.str_in "FAILED" (status (extracted text d ev))) = true.
Proof. reflexivity. Qed.

Lemma pipeline_failed (ev : Event) (w : World) (e : PyExc) :
  source_text ev (fs w) = inr e ->
  run_pipeline ev w = ExtractorAgent.run ev w /\
  ExtractorAgent.run ev w =
    (Ok (extraction_failed e ev),
     mkWorld (fs w)
       (console w ++
        [Step (Py.strftime_datetime (clock w)) "Extractor Agent"
              ("Received event for '" ++ filename ev ++ "'") "36";
         Step (Py.strftime_datetime (clock w)) "Extractor Agent"
              ("An error occurred: " ++ str_of_exc e) "31"])%list
       (clock w) (rng w)).
Proof.
  intros H. pose proof (extractor_failed ev w e H) as E. split; [|exact E].
  unfold run_pipeline, bind. rewrite E, failed_status_check. reflexivity.
Qed.

Lemma pipeline_ok (ev : Event) (w : World) (text : string) :
  source_text ev (fs w) = inl text ->
  exists e1 w1 e2 w2 e3 w3 d x action out,
    ExtractorAgent.run ev w = (Ok e1, w1) /\ e1 = extracted text d ev /\
    ClassifierAgent.run e1 w1 = (Ok e2, w2) /\
    e2 = classified (first_keyword_label text) x e1 /\
    RouterAgent.run e2 w2 = (Ok e3, w3) /\ e3 = routed action (clock w3) e2 /\
    run_pipeline ev w = (Ok e3, w3) /\
    fs w3 = fs w /\ console w3 = (console w ++ out)%list /\
    steps_of ["Extractor Agent"; "LLM Service"; "Classifier Agent"; "Router Agent"] out /\
    existsb (by_agent "Classifier Agent") out = true /\
    existsb (by_agent "Router Agent") out = true.
Proof.
  intros H.
  destruct (extractor_ok ev w text H) as (d & out1 & c1 & r1 & E1 & HF1 & _).
  set (e1 := extracted text d ev) in *.
  set (w1 := mkWorld (fs w) (console w ++ out1)%list c1 r1) in *.
  pose proof (classifier_run e1 w1) as E2. cbv zeta in E2.
  change (text_of e1) with text in E2.
  set (x := drawn _ _ w1) in E2.
  set (e2 := classified (first_keyword_label text) x e1) in *.
  match type of E2 with _ = (_, ?w) => set (w2 := w) in * end.
  destruct (router_run_ok e2 w2) as (action & out3 & E3 & HF3 & Hne).
  { intros _. discriminate. }
  match type of E3 with _ = (_, ?w) => set (w3 := w) in * end.
  exists e1, w1, e2, w2, (routed action (clock w2 + 1) e2), w3, d, x, action.
  eexists.
  split; [exact E1|]. split; [reflexivity|]. split; [exact E2|]. split; [reflexivity|].
  split; [exact E3|]. split; [reflexivity|].
  split.
  { unfold run_pipeline, bind. rewrite E1. unfold e1 at 1.
    rewrite extracted_status_check, E2. exact E3. }
  split; [reflexivity|]. split.
  { subst w3 w2 w1. cbn [console]. rewrite <- !app_assoc. reflexivity. }
  assert (HF2 : forall a b : Output, by_agent "Classifier Agent" a = true ->
                  by_agent "Classifier Agent" b = true ->
                  steps_of ["Classifier Agent"] [a; b]).
  { intros a b Ha Hb. repeat constructor; cbn [existsb]; rewrite ?Ha, ?Hb; reflexivity. }
  split; [|split].
  - apply steps_of_app; [|apply steps_of_app].
    + eapply steps_of_weaken; [|exact HF1]. intros a [<-|[<-|[]]]; cbn; auto.
    + eapply steps_of_weaken; [|apply HF2; reflexivity]. intros a [<-|[]]; cbn; auto.
    + eapply steps_of_weaken; [|exact HF3]. intros a [<-|[]]; cbn; auto.
  - rewrite !existsb_app. cbn [existsb by_agent]. 
    change ("Classifier Agent" =? "Classifier Agent") with true.
    cbn [orb]. rewrite orb_true_r. reflexivity.
  - rewrite !existsb_app. destruct out3 as [|o out3]; [contradiction|].
    inversion HF3 as [|? ? Ho _]; subst. cbn [existsb] in Ho |- *.
    rewrite orb_false_r in Ho. rewrite Ho. cbn [orb]. rewrite !orb_true_r. reflexivity.
Qed.

Lemma steps_no_dump (agents : list string) (label : string) (out : list Output) :
  steps_of agents out ->
  flat_map (fun o => match o with
                     | PrintEvent l e => if l =? label then [e] else []
                     | _ => []
                     end) out = [].
Proof.
  intros H. induction H as [|o out Ho _ IH]; [reflexivity|].
  cbn [flat_map]. rewrite IH.
  destruct o; try reflexivity.
  apply existsb_exists in Ho. destruct Ho as (a & _ & Ha). discriminate.
Qed.

Lemma pipeline_run (ev : Event) (w : World) :
  exists ev' out c r,
    run_pipeline ev w = (Ok ev', mkWorld (fs w) (console w ++ out)%list c r) /\
    pipeline_outcome ev ev' (fs w) /\
    steps_of ["Extractor Agent"; "LLM Service"; "Classifier Agent"; "Router Agent"] out /\
    (forall e, source_text ev (fs w) = inr e -> steps_of ["Extractor Agent"] out).
Proof.
  unfold pipeline_outcome.
  destruct (source_text ev (fs w)) as [text|e] eqn:Es.
  - destruct (pipeline_ok ev w text Es)
      as (e1 & w1 & e2 & w2 & e3 & w3 & d & x & action & out &
          _ & -> & _ & -> & _ & -> & R & Hfs & Hc & HF & _).
    exists (routed action (clock w3) (classified (first_keyword_label text) x (extracted text d ev))).
    exists out, (clock w3), (rng w3). split.
    + rewrite R. f_equal. destruct w3 as [f3 o3 c3 r3]. cbn [fs console clock rng] in *. subst. reflexivity.
    + split; [do 4 eexists; reflexivity|]. split; [exact HF | discriminate].
  - destruct (pipeline_failed ev w e Es) as (R & E). rewrite R, E.
    do 4 eexists. split; [reflexivity|]. split; [reflexivity|].
    split; [repeat constructor|]. intros _ _. repeat constructor.
Qed.

Lemma pipeline_keeps_identity (ev ev' : Event) (f : FS) :
  pipeline_outcome ev ev' f ->
  filename ev' = filename ev /\ original_path ev' = original_path ev /\
  (status ev' = "EXTRACTION_FAILED" <-> exists e, source_text ev f = inr e).
Proof.
  unfold pipeline_outcome. destruct (source_text ev f) as [text|e].
  - intros (d & x & action & t & ->). repeat split; try discriminate.
    intros (e & He). discriminate.
  - intros ->. repeat split. exists e. reflexivity.
Qed.

Lemma process_run (ev : Event) (w : World) :
  exists ev' pipe arch f' c r,
    process ev w =
      (Ok tt, mkWorld f' (console w ++ process_lines ev ev' pipe arch)%list c r) /\
    pipeline_outcome ev ev' (fs w) /\
    steps_of ["Extractor Agent"; "LLM Service"; "Classifier Agent"; "Router Agent"] pipe /\
    (forall e, source_text ev (fs w) = inr e -> steps_of ["Extractor Agent"] pipe) /\
    by_agent "Orchestrator" arch = true /\
    match Os.rename (original_path ev) (Py.path_join PROCESSED_DOCS_DIR (filename ev)) (fs w) with
    | inl f => f' = f /\ exists ts, arch = Step ts "Orchestrator"
                 ("Moved '" ++ filename ev ++ "' to '" ++ PROCESSED_DOCS_DIR ++ "'") "34"
    | inr e => f' = fs w /\ exists ts, arch = Step ts "Orchestrator"
                 ("Could not move file: " ++ str_of_exc e) "31"
    end.
Proof.
  unfold process. run_monad.
  match goal with
  | |- context [run_pipeline ev ?wa] =>
      destruct (pipeline_run ev wa) as (ev' & pipe & c & r & R & Ho & HF & HE)
  end.
  cbn [fs console clock rng] in *. rewrite R.
  destruct (pipeline_keeps_identity _ _ _ Ho) as (Hn & Hp & _).
  rewrite archive_run. cbn [fs console clock rng]. rewrite Hn, Hp.
  destruct (Os.rename (original_path ev) _ (fs w)) as [f|e] eqn:Er; cbn [fs console clock rng];
    unfold process_lines; rewrite <- !app_assoc; cbn [app];
    do 6 eexists; (split; [reflexivity|]);
    (split; [exact Ho|]); (split; [exact HF|]); (split; [exact HE|]);
    (split; [reflexivity|]); (split; [reflexivity|]); eexists; reflexivity.
Qed.

(* ================================================================= *)
(** ** The claims *)

(** C3 (as stated): on a text without keyword the service would return a
    mapping whose only key is [error].  It does not: on "Lorem ipsum" the
    mapping also holds [source_text_length]. *)
Lemma service_error_only_counterexample :
  ~ (forall (text : string) (w : World),
       no_keyword text ->
       exists d w',
         mock_llm_entity_extraction text w = (Ok d, w') /\ Py.dict_keys d = ["error"]).
Proof.
  intros H.
  destruct (H "Lorem ipsum" quiet_world) as (d & w' & E & K).
  - repeat split; reflexivity.
  - rewrite service_no_keyword in E by (repeat split; reflexivity).
    injection E as <- _. discriminate K.
Qed.

(** C3 (amended): for every text in which none of the keywords invoice,
    contract, resume occurs, whatever the case, the service returns a mapping
    with exactly two keys, in this order: [source_text_length], the length of
    the text, and [error], the fixed message that the document structure
    could not be determined.  It writes only its own console lines and
    leaves the file system alone. *)
Theorem service_unrecognized (text : string) (w : World) :
  no_keyword text ->
  exists w',
    mock_llm_entity_extraction text w =
      (Ok [("source_text_length", Py.Int (Py.len text)); ("error", Py.Str ENTITY_ERROR)], w') /\
    Py.dict_keys [("source_text_length", Py.Int (Py.len text)); ("error", Py.Str ENTITY_ERROR)] =
      ["source_text_length"; "error"] /\
    fs w' = fs w /\ invoked "LLM Service" w w' = true.
Proof.
  intros H. rewrite (service_no_keyword text w H). eexists. split; [reflexivity|].
  split; [reflexivity|]. split; [reflexivity|].
  unfold invoked. rewrite output_since_mk. reflexivity.
Qed.

Lemma service_unrecognized_witness :
  no_keyword "Lorem ipsum" /\
  exists w',
    mock_llm_entity_extraction "Lorem ipsum" quiet_world =
      (Ok [("source_text_length", Py.Int (Py.len "Lorem ipsum"));
           ("error", Py.Str ENTITY_ERROR)], w') /\
    Py.dict_keys [("source_text_length", Py.Int (Py.len "Lorem ipsum"));
                  ("error", Py.Str ENTITY_ERROR)] =
      ["source_text_length"; "error"] /\
    fs w' = fs quiet_world /\ invoked "LLM Service" quiet_world w' = true.
Proof.
  split.
  - repeat split; reflexivity.
  - apply (service_unrecognized "Lorem ipsum" quiet_world). repeat split; reflexivity.
Defined.

(** C4: when reading the source of an event raises (the path ends in .txt
    and [open(...).read()] fails with exception [e]), the extractor returns
    normally, the event has status EXTRACTION_FAILED and [error_message] is
    [str(e)], no other key is written, and the entity-extraction service
    was not called. *)
Theorem extractor_contains_read_failure (ev : Event) (w : World) (e : PyExc) :
  Py.endswith (original_path ev) ".txt" = true ->
  Os.read_text (original_path ev) (fs w) = inr e ->
  exists ev' w',
    ExtractorAgent.run ev w = (Ok ev', w') /\
    status ev' = "EXTRACTION_FAILED" /\
    error_message ev' = Some (str_of_exc e) /\
    extracted_text ev' = extracted_text ev /\
    extracted_entities ev' = extracted_entities ev /\
    invoked "LLM Service" w w' = false /\
    fs w' = fs w.
Proof.
  intros Ht Hr.
  assert (Hs : source_text ev (fs w) = inr e) by (unfold source_text; rewrite Ht; exact Hr).
  rewrite (extractor_failed ev w e Hs). do 2 eexists. split; [reflexivity|].
  repeat split. unfold invoked. rewrite output_since_mk. reflexivity.
Qed.

Lemma extractor_contains_read_failure_witness :
  exists ev' w',
    ExtractorAgent.run locked_event locked_world = (Ok ev', w') /\
    status ev' = "EXTRACTION_FAILED" /\
    error_message ev' = Some (str_of_exc denied) /\
    extracted_text ev' = extracted_text locked_event /\
    extracted_entities ev' = extracted_entities locked_event /\
    invoked "LLM Service" locked_world w' = false /\
    fs w' = fs locked_world.
Proof.
  apply (extractor_contains_read_failure locked_event locked_world denied); reflexivity.
Defined.

(** C5: the classifier returns normally on every event, with status
    CLASSIFIED and a classification whose [document_type] is the label of
    the first keyword, in the order invoice, contract, resume, found in the
    lower-cased [extracted_text] (Unknown when none is found), and whose
    [confidence] is a value drawn from the range of that label (Invoice
    0.90-0.99, Contract 0.85-0.95, Resume 0.88-0.98, Unknown 0.40-0.60),
    rounded to two decimal places; the rounded value lies in the range
    too. *)
Theorem classifier_total (ev : Event) (w : World) :
  exists ev' w' c x,
    ClassifierAgent.run ev w = (Ok ev', w') /\
    status ev' = "CLASSIFIED" /\
    classification ev' = Some c /\
    document_type c = first_keyword_label (text_of ev) /\
    (fst (confidence_range (document_type c)) <= x)%Q /\
    (x <= snd (confidence_range (document_type c)))%Q /\
    confidence c = Py.round2 x /\
    (exists n : Z, confidence c = n # 100) /\
    (fst (confidence_range (document_type c)) <= confidence c)%Q /\
    (confidence c <= snd (confidence_range (document_type c)))%Q.
Proof.
  pose proof (classifier_run ev w) as R. cbv zeta in R.
  set (label := first_keyword_label (text_of ev)) in *.
  set (x := drawn _ _ w) in *.
  exists (classified label x ev). eexists.
  exists (mkClassification label (Py.round2 x)), x.
  split; [exact R|]. split; [reflexivity|]. split; [reflexivity|]. split; [reflexivity|].
  cbn [document_type confidence].
  assert (Hk : 0 <= hd 0 (rng w) mod 2 ^ 53 < 2 ^ 53) by (apply Z.mod_pos_bound; lia).
  assert (Hx : (fst (confidence_range label) <= x)%Q /\ (x <= snd (confidence_range label))%Q).
  { apply uniform_bounds; [|exact Hk]. unfold confidence_range.
    destruct (label =? "Invoice"); [|destruct (label =? "Contract");
      [|destruct (label =? "Resume")]]; discriminate. }
  destruct Hx as (Hlo & Hhi).
  split; [exact Hlo|]. split; [exact Hhi|]. split; [reflexivity|].
  split; [eexists; reflexivity|].
  revert Hlo Hhi. unfold confidence_range.
  destruct (label =? "Invoice"); [|destruct (label =? "Contract");
    [|destruct (label =? "Resume")]]; cbn [fst snd]; apply round2_bounds.
Qed.

(** C10: on an event without the [extracted_text] key the classifier does
    not raise: it returns the event with status CLASSIFIED and
    [document_type] Unknown. *)
Theorem classifier_missing_text (ev : Event) (w : World) :
  extracted_text ev = None ->
  exists ev' w' c,
    ClassifierAgent.run ev w = (Ok ev', w') /\
    status ev' = "CLASSIFIED" /\
    classification ev' = Some c /\
    document_type c = "Unknown" /\
    extracted_text ev' = None.
Proof.
  intros H. pose proof (classifier_run ev w) as R. cbv zeta in R.
  unfold text_of in R. rewrite H in R.
  change (first_keyword_label "") with "Unknown" in R.
  rewrite R. do 3 eexists. split; [reflexivity|]. repeat split. exact H.
Qed.

Lemma classifier_missing_text_witness :
  exists ev' w' c,
    ClassifierAgent.run locked_event locked_world = (Ok ev', w') /\
    status ev' = "CLASSIFIED" /\
    classification ev' = Some c /\
    document_type c = "Unknown" /\
    extracted_text ev' = None.
Proof.
  apply (classifier_missing_text locked_event locked_world). reflexivity.
Defined.

(** The two sample Invoice events are what ingestor, extractor and
    classifier make of the same file under two tapes of the generator. *)
Example invoice_events_arise :
  fst (up_to_classifier (invoice_world [12345678901234567; 4503599627370496; 42])) =
    Ok (Some (invoice_event "INV-7575" "$2550.00")) /\
  fst (up_to_classifier (invoice_world [])) =
    Ok (Some (invoice_event "INV-1000" "$100.00")).
Proof. split; vm_compute; reflexivity. Qed.

(** C6 (as stated): two CLASSIFIED events of the same document type would
    get equal action strings.  Two Invoice events whose entities differ in
    the invoice number do not. *)
Lemma router_action_by_type_counterexample :
  ~ (forall (e1 e2 : Event) (w1 w2 : World) (e1' e2' : Event) (w1' w2' : World)
            (r1 r2 : RoutingInfo),
       status e1 = "CLASSIFIED" -> status e2 = "CLASSIFIED" ->
       doc_type_of e1 = doc_type_of e2 ->
       RouterAgent.run e1 w1 = (Ok e1', w1') ->
       RouterAgent.run e2 w2 = (Ok e2', w2') ->
       routing_info e1' = Some r1 -> routing_info e2' = Some r2 ->
       action_taken r1 = action_taken r2).
Proof.
  intros H.
  pose proof (router_run_invoice (invoice_event "INV-7575" "$2550.00") quiet_world _ eq_refl eq_refl) as E1.
  pose proof (router_run_invoice (invoice_event "INV-1000" "$100.00") quiet_world _ eq_refl eq_refl) as E2.
  specialize (H (invoice_event "INV-7575" "$2550.00") (invoice_event "INV-1000" "$100.00") _ _ _ _ _ _ _ _
                eq_refl eq_refl eq_refl E1 E2 eq_refl eq_refl).
  vm_compute in H. discriminate H.
Qed.

(** C6 (amended): the router returns normally with status ROUTED, and its
    action string is fixed by the document type for every type but
    Invoice: Contract and Resume have a fixed string each, and any other
    type (Unknown, unmapped, or no classification at all) gets the
    manual-review string.  For Invoice the action is the fixed prefix
    followed by the text of the event's extracted entities.  Hence two
    events of the same type get equal action strings when the type is not
    Invoice, or when their extracted entities are equal. *)
Theorem router_action_table (e1 e2 : Event) (w1 w2 : World) :
  doc_type_of e1 = doc_type_of e2 ->
  (doc_type_of e1 = "Invoice" ->
   exists d, extracted_entities e1 = Some d /\ extracted_entities e2 = Some d) ->
  exists e1' w1' r1 e2' w2' r2,
    RouterAgent.run e1 w1 = (Ok e1', w1') /\
    RouterAgent.run e2 w2 = (Ok e2', w2') /\
    status e1' = "ROUTED" /\ status e2' = "ROUTED" /\
    routing_info e1' = Some r1 /\ routing_info e2' = Some r2 /\
    action_taken r1 = action_taken r2 /\
    (doc_type_of e1 = "Invoice" ->
     option_map (fun d => ERP_PREFIX ++ Py.repr_dict d) (extracted_entities e1) =
       Some (action_taken r1)) /\
    (doc_type_of e1 = "Contract" ->
     action_taken r1 = "Archiving contract to legal department database.") /\
    (doc_type_of e1 = "Resume" ->
     action_taken r1 = "Forwarding resume to HR Applicant Tracking System.") /\
    (mapped (doc_type_of e1) = false -> action_taken r1 = MANUAL_REVIEW).
Proof.
  intros Ht Hd. destruct (doc_type_of e1 =? "Invoice") eqn:E.
  - apply String.eqb_eq in E. destruct (Hd E) as (d & H1 & H2).
    rewrite (router_run_invoice e1 w1 d), (router_run_invoice e2 w2 d);
      try assumption; try (rewrite <- Ht); try (rewrite E; reflexivity).
    do 6 eexists. repeat (split; [reflexivity|]).
    split; [intros _; rewrite H1; reflexivity|].
    unfold mapped. rewrite E. repeat split; discriminate.
  - destruct (router_run_other e1 w1 E) as (a1 & R1 & A1).
    assert (E' : (doc_type_of e2 =? "Invoice") = false) by (rewrite <- Ht; exact E).
    destruct (router_run_other e2 w2 E') as (a2 & R2 & A2).
    rewrite R1, R2. do 6 eexists. repeat (split; [reflexivity|]).
    cbn [routed set_routing_info set_status routing_info action_taken].
    rewrite <- Ht in A2. subst a1 a2. split; [reflexivity|].
    apply String.eqb_neq in E. split; [intros E0; contradiction|].
    unfold mapped. repeat split.
    + intros ->. reflexivity.
    + intros ->. reflexivity.
    + intros Hm. apply orb_false_iff in Hm. destruct Hm as (Hm & Hr).
      apply orb_false_iff in Hm. destruct Hm as (_ & Hc). rewrite Hc, Hr. reflexivity.
Qed.

Lemma router_action_table_witness :
  exists e1' w1' r1 e2' w2' r2,
    RouterAgent.run (contract_event "a.txt") quiet_world = (Ok e1', w1') /\
    RouterAgent.run (contract_event "b.txt") quiet_world = (Ok e2', w2') /\
    status e1' = "ROUTED" /\ status e2' = "ROUTED" /\
    routing_info e1' = Some r1 /\ routing_info e2' = Some r2 /\
    action_taken r1 = action_taken r2 /\
    (doc_type_of (contract_event "a.txt") = "Invoice" ->
     option_map (fun d => ERP_PREFIX ++ Py.repr_dict d)
                (extracted_entities (contract_event "a.txt")) =
       Some (action_taken r1)) /\
    (doc_type_of (contract_event "a.txt") = "Contract" ->
     action_taken r1 = "Archiving contract to legal department database.") /\
    (doc_type_of (contract_event "a.txt") = "Resume" ->
     action_taken r1 = "Forwarding resume to HR Applicant Tracking System.") /\
    (mapped (doc_type_of (contract_event "a.txt")) = false -> action_taken r1 = MANUAL_REVIEW).
Proof.
  apply (router_action_table (contract_event "a.txt") (contract_event "b.txt")).
  - reflexivity.
  - discriminate.
Defined.

Lemma lower_app (a b : string) : Py.lower (a ++ b) = Py.lower a ++ Py.lower b.
Proof. induction a as [|c a IH]; cbn [Py.lower append]; [|rewrite IH]; reflexivity. Qed.

Lemma str_in_app_r (p a b : string) :
  Py.str_in p b = true -> Py.str_in p (a ++ b) = true.
Proof.
  intros H. induction a as [|c a IH]; [exact H|].
  cbn [append Py.str_in]. rewrite IH. apply orb_true_r.
Qed.

Lemma placeholder_has_invoice (name : string) :
  Py.str_in "invoice" (Py.lower (ExtractorAgent.placeholder name)) = true.
Proof.
  unfold ExtractorAgent.placeholder. rewrite !lower_app.
  apply str_in_app_r, str_in_app_r. reflexivity.
Qed.

Lemma placeholder_label (name : string) :
  first_keyword_label (ExtractorAgent.placeholder name) = "Invoice".
Proof.
  unfold first_keyword_label. cbn [find fst snd].
  rewrite placeholder_has_invoice. reflexivity.
Qed.

(** C9: for an event whose file name does not end in ".txt" (and whose
    path is the one the ingestor builds for that name), the extractor does
    not read the file: the text is the placeholder, which holds the keyword
    invoice, and the pipeline ends with status ROUTED and [document_type]
    Invoice. *)
Theorem non_txt_is_invoice (ev : Event) (w : World) :
  Py.endswith (filename ev) ".txt" = false ->
  original_path ev = Py.path_join DOCS_TO_PROCESS_DIR (filename ev) ->
  exists e1 w1 ev' w' c,
    ExtractorAgent.run ev w = (Ok e1, w1) /\
    status e1 = "EXTRACTED" /\
    extracted_text e1 = Some (ExtractorAgent.placeholder (filename ev)) /\
    Py.str_in "invoice" (Py.lower (ExtractorAgent.placeholder (filename ev))) = true /\
    run_pipeline ev w = (Ok ev', w') /\
    status ev' = "ROUTED" /\
    extracted_text ev' = Some (ExtractorAgent.placeholder (filename ev)) /\
    classification ev' = Some c /\
    document_type c = "Invoice".
Proof.
  intros Hn Hp.
  assert (Hs : source_text ev (fs w) = inl (ExtractorAgent.placeholder (filename ev))).
  { unfold source_text. rewrite Hp, docs_path_endswith, Hn. reflexivity. }
  destruct (pipeline_ok ev w _ Hs)
    as (e1 & w1 & e2 & w2 & e3 & w3 & d & x & action & out &
        E1 & -> & _ & -> & _ & -> & R & _).
  rewrite placeholder_label in R.
  do 5 eexists. split; [exact E1|]. split; [reflexivity|]. split; [reflexivity|].
  split; [apply placeholder_has_invoice|]. split; [exact R|]. repeat split.
Qed.

Lemma non_txt_is_invoice_witness :
  exists e1 w1 ev' w' c,
    ExtractorAgent.run pdf_event quiet_world = (Ok e1, w1) /\
    status e1 = "EXTRACTED" /\
    extracted_text e1 = Some (ExtractorAgent.placeholder (filename pdf_event)) /\
    Py.str_in "invoice" (Py.lower (ExtractorAgent.placeholder (filename pdf_event))) = true /\
    run_pipeline pdf_event quiet_world = (Ok ev', w') /\
    status ev' = "ROUTED" /\
    extracted_text ev' = Some (ExtractorAgent.placeholder (filename pdf_event)) /\
    classification ev' = Some c /\
    document_type c = "Invoice".
Proof.
  apply (non_txt_is_invoice pdf_event quiet_world); reflexivity.
Defined.

(** C2: for an event that the ingestor created, run through the pipeline
    in any world, the statuses follow INGESTED, EXTRACTED, CLASSIFIED,
    ROUTED or INGESTED, EXTRACTION_FAILED.  When the extractor returns a
    failed event the pipeline returns that very event in the world the
    extractor left, and neither classifier nor router wrote to the
    console; when it returns an extracted event, the classifier runs on it
    and the router on the classifier's event, whatever the label. *)
Theorem pipeline_status_path (w0 wi : World) (ev : Event) (w : World) :
  IngestorAgent.run the_ingestor w0 = (Ok (Some ev), wi) ->
  status ev = "INGESTED" /\
  exists e1 w1,
    ExtractorAgent.run ev w = (Ok e1, w1) /\
    ((status e1 = "EXTRACTION_FAILED" /\
      run_pipeline ev w = (Ok e1, w1) /\
      invoked "Classifier Agent" w w1 = false /\
      invoked "Router Agent" w w1 = false)
     \/
     (status e1 = "EXTRACTED" /\
      exists e2 w2 e3 w3,
        ClassifierAgent.run e1 w1 = (Ok e2, w2) /\ status e2 = "CLASSIFIED" /\
        RouterAgent.run e2 w2 = (Ok e3, w3) /\ status e3 = "ROUTED" /\
        run_pipeline ev w = (Ok e3, w3) /\
        invoked "Classifier Agent" w w3 = true /\
        invoked "Router Agent" w w3 = true)).
Proof.
  intros Hi. destruct (ingested _ _ _ Hi) as ((Hst & _) & _).
  split; [exact Hst|].
  destruct (source_text ev (fs w)) as [text|e] eqn:Es.
  - destruct (pipeline_ok ev w text Es)
      as (e1 & w1 & e2 & w2 & e3 & w3 & d & x & action & out &
          E1 & -> & E2 & -> & E3 & -> & R & _ & Hc & _ & Hcl & Hro).
    exists (extracted text d ev), w1. split; [exact E1|]. right.
    split; [reflexivity|]. do 4 eexists.
    split; [exact E2|]. split; [reflexivity|]. split; [exact E3|]. split; [reflexivity|].
    split; [exact R|]. unfold invoked. rewrite (output_since_app _ _ _ Hc).
    split; assumption.
  - destruct (pipeline_failed ev w e Es) as (R & E). rewrite R, E.
    do 2 eexists. split; [reflexivity|]. left. split; [reflexivity|].
    split; [reflexivity|]. unfold invoked. rewrite output_since_mk. split; reflexivity.
Qed.

Lemma pipeline_status_path_witness :
  status locked_event = "INGESTED" /\
  exists e1 w1,
    ExtractorAgent.run locked_event locked_ingested = (Ok e1, w1) /\
    ((status e1 = "EXTRACTION_FAILED" /\
      run_pipeline locked_event locked_ingested = (Ok e1, w1) /\
      invoked "Classifier Agent" locked_ingested w1 = false /\
      invoked "Router Agent" locked_ingested w1 = false)
     \/
     (status e1 = "EXTRACTED" /\
      exists e2 w2 e3 w3,
        ClassifierAgent.run e1 w1 = (Ok e2, w2) /\ status e2 = "CLASSIFIED" /\
        RouterAgent.run e2 w2 = (Ok e3, w3) /\ status e3 = "ROUTED" /\
        run_pipeline locked_event locked_ingested = (Ok e3, w3) /\
        invoked "Classifier Agent" locked_ingested w3 = true /\
        invoked "Router Agent" locked_ingested w3 = true)).
Proof.
  apply (pipeline_status_path locked_world locked_ingested locked_event locked_ingested).
  reflexivity.
Defined.

(** C7: an event that the ingestor created leaves the pipeline either
    ROUTED with classification and routing_info present, or
    EXTRACTION_FAILED with error_message present, and never both; every
    event of its history whose status is EXTRACTED, CLASSIFIED or ROUTED
    has extracted_entities, and a failed one has error_message and no
    extracted_entities. *)
Theorem exit_invariant (w0 wi : World) (ev : Event) (w : World) :
  IngestorAgent.run the_ingestor w0 = (Ok (Some ev), wi) ->
  exists history ev' w',
    stages_of ev w history /\
    run_pipeline ev w = (Ok ev', w') /\
    last history ev = ev' /\
    ((routed_exit ev' /\ ~ failed_exit ev') \/ (failed_exit ev' /\ ~ routed_exit ev')) /\
    Forall entities_invariant history.
Proof.
  intros Hi. destruct (ingested _ _ _ Hi) as ((Hst & _ & Hent & _ & _ & Herr) & _).
  assert (Hev : entities_invariant ev).
  { split; rewrite Hst.
    - intros [H|[H|[H|[]]]]; discriminate H.
    - discriminate. }
  destruct (source_text ev (fs w)) as [text|e] eqn:Es.
  - destruct (pipeline_ok ev w text Es)
      as (e1 & w1 & e2 & w2 & e3 & w3 & d & x & action & out &
          E1 & -> & E2 & -> & E3 & -> & R & _).
    eexists [ev; _; _; _], _, _. split; [|split; [exact R|split; [reflexivity|split]]].
    + exists (extracted text d ev), w1. split; [exact E1|].
      rewrite extracted_status_check. do 4 eexists.
      split; [exact E2|]. split; [exact E3|]. reflexivity.
    + left. split.
      * repeat split; discriminate.
      * intros (H & _). discriminate H.
    + repeat (apply Forall_cons; [try exact Hev|]); try apply Forall_nil;
        (split; [intros _; discriminate | intros H; discriminate H]).
  - destruct (pipeline_failed ev w e Es) as (R & E).
    eexists [ev; _], _, _. split; [|split; [rewrite R; exact E|split; [reflexivity|split]]].
    + eexists (extraction_failed e ev), _. split; [exact E|].
      rewrite failed_status_check. reflexivity.
    + right. split.
      * split; [reflexivity | discriminate].
      * intros (H & _). discriminate H.
    + repeat (apply Forall_cons; [try exact Hev|]); try apply Forall_nil.
      split.
      * intros [H|[H|[H|[]]]]; discriminate H.
      * intros _. split; [discriminate | exact Hent].
Qed.

Lemma exit_invariant_witness :
  exists history ev' w',
    stages_of locked_event locked_ingested history /\
    run_pipeline locked_event locked_ingested = (Ok ev', w') /\
    last history locked_event = ev' /\
    ((routed_exit ev' /\ ~ failed_exit ev') \/ (failed_exit ev' /\ ~ routed_exit ev')) /\
    Forall entities_invariant history.
Proof.
  apply (exit_invariant locked_world locked_ingested locked_event locked_ingested).
  reflexivity.
Defined.


Lemma orchestrator_line (arch : Output) :
  by_agent "Orchestrator" arch = true ->
  exists ts m c, arch = Step ts "Orchestrator" m c.
Proof.
  destruct arch as [ts a m c| |]; try discriminate. cbn [by_agent]. intros H.
  apply String.eqb_eq in H. subst a. do 3 eexists. reflexivity.
Qed.

Lemma process_lines_dumps (ev ev' : Event) (pre pipe : list Output) (arch : Output)
      (agents agents' : list string) :
  steps_of agents pre -> steps_of agents' pipe -> by_agent "Orchestrator" arch = true ->
  let dump label :=
    flat_map (fun o => match o with
                       | PrintEvent l e => if l =? label then [e] else []
                       | _ => []
                       end) (pre ++ process_lines ev ev' pipe arch) in
  dump "Initial Event:" = [ev] /\ dump "Final Event State:" = [ev'].
Proof.
  intros Hpre Hpipe Ha. destruct (orchestrator_line _ Ha) as (ts & m & c & ->).
  cbv zeta. unfold process_lines. rewrite !flat_map_app.
  rewrite !(steps_no_dump _ _ _ Hpre), !(steps_no_dump _ _ _ Hpipe). split; reflexivity.
Qed.


Lemma src_not_dst (name : string) :
  "documents_to_process/" ++ name <> "processed_documents/" ++ name.
Proof. cbn [append]. discriminate. Qed.

Lemma docs_path_inj (a b : string) :
  "documents_to_process/" ++ a = "documents_to_process/" ++ b -> a = b.
Proof. cbn [append]. intros H. congruence. Qed.

(** One iteration on [locked_world]: the unreadable file ends in the
    processed directory. *)
Example failed_file_is_moved :
  fs (snd (cycle the_ingestor locked_world)) =
    [("documents_to_process", Directory); ("processed_documents", Directory);
     ("processed_documents/c.txt", RegularFile 11 (inr denied))] /\
  dumped "Final Event State:" locked_world (snd (cycle the_ingestor locked_world)) =
    [extraction_failed denied locked_event].
Proof. split; vm_compute; reflexivity. Qed.




Lemma scan_first (self : IngestorAgent.t) (names : list string) (w : World) :
  option_map filename
    (match fst (IngestorAgent.scan self names w) with Ok r => r | Raise _ => None end) =
  hd_error (filter (fun name =>
                      Os.isfile (Py.path_join (IngestorAgent.watch_directory self) name) (fs w))
                   names).
Proof.
  induction names as [|name rest IH]; [reflexivity|].
  cbn [IngestorAgent.scan filter]. run_monad.
  destruct (Os.isfile (Py.path_join (IngestorAgent.watch_directory self) name) (fs w)) eqn:E.
  - destruct (isfile_getsize _ _ E) as (size & Hs). rewrite Hs. run_monad. reflexivity.
  - exact IH.
Qed.

Lemma ingestor_first (w : World) (r : option Event) (w' : World) :
  IngestorAgent.run the_ingestor w = (Ok r, w') ->
  option_map filename r = hd_error (intake_files (fs w)).
Proof.
  intros H. unfold intake_files.
  pose proof (scan_first the_ingestor (Os.listdir DOCS_TO_PROCESS_DIR (fs w)) w) as S.
  cbn [the_ingestor IngestorAgent.watch_directory] in S. rewrite <- S.
  unfold IngestorAgent.run in H. revert H. run_monad.
  cbn [the_ingestor IngestorAgent.watch_directory]. intros ->. reflexivity.
Qed.

Lemma cycle_run (w : World) :
  exists r out,
    let wi := mkWorld (fs w) (console w ++ out)%list (clock w) (rng w) in
    IngestorAgent.run the_ingestor w = (Ok r, wi) /\
    steps_of ["Ingestor Agent"] out /\
    match r with
    | None => cycle the_ingestor w = (Ok tt, mkWorld (fs w) (console wi) (clock w + 5) (rng w))
    | Some ev =>
        exists w', process ev wi = (Ok tt, w') /\
                   cycle the_ingestor w =
                     (Ok tt, mkWorld (fs w') (console w') (clock w' + 5) (rng w'))
    end.
Proof.
  destruct (ingestor_run the_ingestor w) as (r & out & R & HF & _).
  exists r, out. cbv zeta. split; [exact R|]. split; [exact HF|].
  unfold cycle, bind. rewrite R. destruct r as [ev|].
  - destruct (process_run ev (mkWorld (fs w) (console w ++ out)%list (clock w) (rng w)))
      as (ev' & pipe & arch & f' & c & r & P & _).
    eexists. split; [exact P|]. rewrite P. reflexivity.
  - reflexivity.
Qed.


(* ================================================================= *)
(** ** Further properties of the code *)

Lemma randint_bounds (a b k : Z) : a <= b -> a <= a + k mod (b - a + 1) <= b.
Proof. intros H. pose proof (Z.mod_pos_bound k (b - a + 1)). lia. Qed.

Lemma draw_bounds (l : list Z) : 0 <= hd 0 l mod 2 ^ 53 < 2 ^ 53.
Proof. apply Z.mod_pos_bound. lia. Qed.

Ltac range_of_label :=
  match goal with
  | |- context [drawn_int_range ?l] =>
      let r := eval vm_compute in (drawn_int_range l) in
      change (drawn_int_range l) with r; cbn [fst snd]
  end.

(** The values that the service draws and the mapping it builds. *)
Lemma service_draws (text : string) (w : World) :
  let label := first_keyword_label text in
  exists d w' n amount,
    mock_llm_entity_extraction text w = (Ok d, w') /\
    d = entities_for label text n amount (clock w' / 86400) /\
    Py.dict_keys d = "source_text_length" :: fields_of label /\
    fst (drawn_int_range label) <= n <= snd (drawn_int_range label) /\
    (100 <= amount)%Q /\ (amount <= 5000)%Q /\
    fs w' = fs w /\ clock w' = clock w + 2 /\
    output_since w w' =
      [Step (Py.strftime_datetime (clock w)) "LLM Service"
            "Analyzing text for entities..." "35";
       Step (Py.strftime_datetime (clock w + 2)) "LLM Service"
            ("Extraction complete. Found " ++
             Py.str_of_int (Z.of_nat (List.length (fields_of label))) ++ " entities.") "35"].
Proof.
  cbv zeta. unfold first_keyword_label, mock_llm_entity_extraction. cbn [find fst snd].
  pose proof (draw_bounds (rng w)) as Hk1.
  pose proof (draw_bounds (tl (rng w))) as Hk2.
  destruct (Py.str_in "invoice" (Py.lower text));
    [|destruct (Py.str_in "contract" (Py.lower text));
      [|destruct (Py.str_in "resume" (Py.lower text))]];
    cbn [snd]; run_monad; rewrite <- app_assoc.
  - eexists _, _, _, (100 + (5000 - 100) * ((hd 0%Z (tl (rng w)) mod 2 ^ 53)%Z # 2 ^ 53))%Q.
    split; [reflexivity|]. split; [reflexivity|]. split; [reflexivity|].
    split; [range_of_label; apply randint_bounds; lia|].
    split; [apply uniform_bounds; [discriminate | exact Hk2]|].
    split; [apply uniform_bounds; [discriminate | exact Hk2]|].
    split; [reflexivity|]. split; [reflexivity|]. apply output_since_mk.
  - eexists _, _, _, 100%Q.
    split; [reflexivity|]. split; [reflexivity|]. split; [reflexivity|].
    split; [range_of_label; apply randint_bounds; lia|].
    split; [discriminate|]. split; [discriminate|].
    split; [reflexivity|]. split; [reflexivity|]. apply output_since_mk.
  - eexists _, _, _, 100%Q.
    split; [reflexivity|]. split; [reflexivity|]. split; [reflexivity|].
    split; [range_of_label; apply randint_bounds; lia|].
    split; [discriminate|]. split; [discriminate|].
    split; [reflexivity|]. split; [reflexivity|]. apply output_since_mk.
  - eexists _, _, 0, 100%Q.
    split; [reflexivity|]. split; [reflexivity|]. split; [reflexivity|].
    split; [range_of_label; lia|].
    split; [discriminate|]. split; [discriminate|].
    split; [reflexivity|]. split; [reflexivity|]. apply output_since_mk.
Qed.

(** X1: the service returns normally on every text.  The mapping starts
    with [source_text_length], the length of the text, followed by the
    fields of the first keyword found in the order invoice, contract,
    resume, or by the error marker; the integer it draws lies in 1000..9999
    for an invoice number, 1..5 for a contract term and 2..10 for years of
    experience, and the invoice amount in 100..5000.  The service sleeps
    two seconds, leaves the file system alone, and reports as found the
    number of keys besides [source_text_length], the error marker
    included. *)
Theorem service_values (text : string) (w : World) :
  let label := first_keyword_label text in
  exists d w' n amount,
    mock_llm_entity_extraction text w = (Ok d, w') /\
    d = entities_for label text n amount (clock w' / 86400) /\
    Py.dict_keys d = "source_text_length" :: fields_of label /\
    fst (drawn_int_range label) <= n <= snd (drawn_int_range label) /\
    (100 <= amount)%Q /\ (amount <= 5000)%Q /\
    fs w' = fs w /\ clock w' = clock w + 2 /\
    output_since w w' =
      [Step (Py.strftime_datetime (clock w)) "LLM Service"
            "Analyzing text for entities..." "35";
       Step (Py.strftime_datetime (clock w + 2)) "LLM Service"
            ("Extraction complete. Found " ++
             Py.str_of_int (Z.of_nat (List.length (fields_of label))) ++ " entities.") "35"].
Proof. exact (service_draws text w). Qed.

(** X2: extractor and classifier agree.  Whenever the source of an event
    resolves to a text, the event that leaves the pipeline is ROUTED, its
    [extracted_text] is that text, and the keys of its extracted entities
    are [source_text_length] followed by the fields of its own
    [document_type]: an Invoice carries the invoice fields, an Unknown
    document the error marker. *)
Theorem entities_match_classification (ev : Event) (w : World) (text : string) :
  source_text ev (fs w) = inl text ->
  exists ev' w' d c,
    run_pipeline ev w = (Ok ev', w') /\
    status ev' = "ROUTED" /\
    extracted_text ev' = Some text /\
    extracted_entities ev' = Some d /\
    classification ev' = Some c /\
    document_type c = first_keyword_label text /\
    Py.dict_keys d = "source_text_length" :: fields_of (document_type c) /\
    hd_error d = Some ("source_text_length", Py.Int (Py.len text)).
Proof.
  intros Hs.
  destruct (extractor_ok ev w text Hs) as (d0 & out0 & c0 & r0 & E0 & _ & (w1 & Hd)).
  destruct (pipeline_ok ev w text Hs)
    as (e1 & w1' & e2 & w2 & e3 & w3 & d & x & action & out &
        E1 & -> & _ & -> & _ & -> & R & _).
  rewrite E0 in E1. injection E1 as Hd0 _.
  assert (d0 = d) as -> by (unfold extracted in Hd0; congruence).
  destruct (service_draws text w1) as (d' & w' & n & amount & S & -> & K & _).
  cbv zeta in K. rewrite S in Hd. cbn [fst] in Hd. injection Hd as <-.
  do 4 eexists. split; [exact R|]. repeat (split; [reflexivity|]).
  split; [exact K | reflexivity].
Qed.

Lemma entities_match_classification_witness :
  exists ev' w' d c,
    run_pipeline pdf_event quiet_world = (Ok ev', w') /\
    status ev' = "ROUTED" /\
    extracted_text ev' = Some (ExtractorAgent.placeholder "d.pdf") /\
    extracted_entities ev' = Some d /\
    classification ev' = Some c /\
    document_type c = first_keyword_label (ExtractorAgent.placeholder "d.pdf") /\
    Py.dict_keys d = "source_text_length" :: fields_of (document_type c) /\
    hd_error d =
      Some ("source_text_length", Py.Int (Py.len (ExtractorAgent.placeholder "d.pdf"))).
Proof.
  apply (entities_match_classification pdf_event quiet_world). reflexivity.
Defined.

(** X3: the extractor returns normally on every event and world, never
    touches the file system and keeps the identity of the event.  It ends
    in EXTRACTION_FAILED exactly when the path ends in ".txt" and reading
    it raises, and in EXTRACTED otherwise: a file of any other name is
    never opened, so it cannot fail. *)
Theorem extractor_outcome (ev : Event) (w : World) :
  exists ev' w',
    ExtractorAgent.run ev w = (Ok ev', w') /\
    fs w' = fs w /\
    filename ev' = filename ev /\ original_path ev' = original_path ev /\
    metadata ev' = metadata ev /\
    (status ev' = "EXTRACTION_FAILED" \/ status ev' = "EXTRACTED") /\
    (status ev' = "EXTRACTION_FAILED" <->
     Py.endswith (original_path ev) ".txt" = true /\
     exists e, Os.read_text (original_path ev) (fs w) = inr e).
Proof.
  destruct (source_text ev (fs w)) as [text|e] eqn:Es.
  - destruct (extractor_ok ev w text Es) as (d & out & c & r & E & _).
    rewrite E. do 2 eexists. split; [reflexivity|]. repeat (split; [reflexivity|]).
    split; [right; reflexivity|]. split; [discriminate|].
    intros (Ht & e & He). unfold source_text in Es. rewrite Ht, He in Es. discriminate.
  - rewrite (extractor_failed ev w e Es).
    do 2 eexists. split; [reflexivity|]. repeat (split; [reflexivity|]).
    split; [left; reflexivity|]. split; [|reflexivity].
    intros _. unfold source_text in Es.
    destruct (Py.endswith (original_path ev) ".txt"); [|discriminate].
    split; [reflexivity|]. exists e. exact Es.
Qed.

(** X4: a readable ".txt" file is taken verbatim: the extractor stores the
    text read as [extracted_text], with status EXTRACTED, entities whose
    [source_text_length] is the length of that text, and no
    [error_message] of its own. *)
Theorem extractor_reads_verbatim (ev : Event) (w : World) (text : string) :
  Py.endswith (original_path ev) ".txt" = true ->
  Os.read_text (original_path ev) (fs w) = inl text ->
  exists ev' w' d,
    ExtractorAgent.run ev w = (Ok ev', w') /\
    status ev' = "EXTRACTED" /\
    extracted_text ev' = Some text /\
    extracted_entities ev' = Some d /\
    hd_error d = Some ("source_text_length", Py.Int (Py.len text)) /\
    error_message ev' = error_message ev /\
    invoked "LLM Service" w w' = true.
Proof.
  intros Ht Hr.
  unfold ExtractorAgent.run. rewrite Ht. run_monad. rewrite Hr. run_monad.
  match goal with
  | |- context [mock_llm_entity_extraction ?t ?w1] =>
      destruct (service_total t w1) as (d & out & c & r & S & _);
      destruct (service_draws t w1)
        as (d' & w' & n & amount & S' & Hd & _ & _ & _ & _ & _ & _ & Ho)
  end.
  rewrite S in S'. injection S' as <- <-. rewrite output_since_mk in Ho. subst out.
  rewrite S. run_monad. do 3 eexists. split; [reflexivity|].
  repeat (split; [reflexivity|]). split; [rewrite Hd; reflexivity|]. split; [reflexivity|].
  unfold invoked. rewrite <- !app_assoc, output_since_mk. reflexivity.
Qed.

Lemma extractor_reads_verbatim_witness :
  exists ev' w' d,
    ExtractorAgent.run a_event (invoice_world []) = (Ok ev', w') /\
    status ev' = "EXTRACTED" /\
    extracted_text ev' = Some "Invoice #1234, due next month" /\
    extracted_entities ev' = Some d /\
    hd_error d = Some ("source_text_length", Py.Int (Py.len "Invoice #1234, due next month")) /\
    error_message ev' = error_message a_event /\
    invoked "LLM Service" (invoice_world []) w' = true.
Proof.
  apply (extractor_reads_verbatim a_event (invoice_world [])); reflexivity.
Defined.

(** X5: the router indexes [extracted_entities] directly: on an event
    classified as Invoice that lacks the key it raises KeyError after
    announcing itself, before sleeping, and nothing is routed.  For any
    other document type the missing key does no harm. *)
Theorem router_missing_entities (ev : Event) (w : World) :
  extracted_entities ev = None ->
  if doc_type_of ev =? "Invoice"
  then exists w',
         RouterAgent.run ev w = (Raise (KeyError "extracted_entities"), w') /\
         fs w' = fs w /\ clock w' = clock w /\
         output_since w w' =
           [Step (Py.strftime_datetime (clock w)) "Router Agent"
                 ("Received event for '" ++ filename ev ++ "'") "36"]
  else exists ev' w' r,
         RouterAgent.run ev w = (Ok ev', w') /\
         status ev' = "ROUTED" /\ routing_info ev' = Some r /\
         extracted_entities ev' = None.
Proof.
  intros Hn. destruct (doc_type_of ev =? "Invoice") eqn:E.
  - unfold RouterAgent.run. fold (doc_type_of ev). rewrite E, Hn. run_monad.
    eexists. split; [reflexivity|]. repeat (split; [reflexivity|]). apply output_since_mk.
  - destruct (router_run_other ev w E) as (action & R & _). rewrite R.
    do 3 eexists. split; [reflexivity|]. repeat split. exact Hn.
Qed.

Lemma router_missing_entities_witness :
  if doc_type_of bare_invoice_event =? "Invoice"
  then exists w',
         RouterAgent.run bare_invoice_event quiet_world =
           (Raise (KeyError "extracted_entities"), w') /\
         fs w' = fs quiet_world /\ clock w' = clock quiet_world /\
         output_since quiet_world w' =
           [Step (Py.strftime_datetime (clock quiet_world)) "Router Agent"
                 ("Received event for '" ++ filename bare_invoice_event ++ "'") "36"]
  else exists ev' w' r,
         RouterAgent.run bare_invoice_event quiet_world = (Ok ev', w') /\
         status ev' = "ROUTED" /\ routing_info ev' = Some r /\
         extracted_entities ev' = None.
Proof.
  apply (router_missing_entities bare_invoice_event quiet_world). reflexivity.
Defined.

(** X6: the pipeline never raises, whatever event and world it is given
    (even an event that already carries a classification of its own): the
    extractor supplies the entities that the router indexes, so the
    router's KeyError cannot occur after it.  The pipeline leaves the file
    system alone, keeps file name, path and metadata of the event, and
    ends ROUTED or EXTRACTION_FAILED. *)
Theorem pipeline_never_raises (ev : Event) (w : World) :
  exists ev' w',
    run_pipeline ev w = (Ok ev', w') /\
    fs w' = fs w /\
    filename ev' = filename ev /\ original_path ev' = original_path ev /\
    metadata ev' = metadata ev /\
    (status ev' = "ROUTED" \/ status ev' = "EXTRACTION_FAILED").
Proof.
  destruct (pipeline_run ev w) as (ev' & out & c & r & R & Ho & _).
  rewrite R. do 2 eexists. split; [reflexivity|]. split; [reflexivity|].
  unfold pipeline_outcome in Ho. destruct (source_text ev (fs w)).
  - destruct Ho as (d & x & action & t & ->). repeat split. left. reflexivity.
  - subst ev'. repeat split. right. reflexivity.
Qed.








Lemma strip_prefix_inv (p s n : string) :
  Os.strip_prefix p s = Some n -> s = p ++ n.
Proof.
  revert s. induction p as [|a p IH]; intros s H.
  - cbn in H. injection H as ->. reflexivity.
  - destruct s as [|b s]; [discriminate|]. cbn [Os.strip_prefix] in H.
    destruct (Ascii.eqb a b) eqn:E; [|discriminate].
    apply Ascii.eqb_eq in E. subst b. cbn [append]. f_equal. apply IH. exact H.
Qed.

Lemma strip_prefix_app (p n : string) : Os.strip_prefix p (p ++ n) = Some n.
Proof.
  induction p as [|a p IH]; [destruct n; reflexivity|].
  cbn [append Os.strip_prefix]. rewrite Ascii.eqb_refl. exact IH.
Qed.

Lemma entry_name_inv (d path name : string) :
  Os.entry_name d path = Some name ->
  path = (d ++ "/") ++ name /\ Py.str_in "/" name = false.
Proof.
  unfold Os.entry_name. destruct (Os.strip_prefix (d ++ "/") path) as [n|] eqn:E; [|discriminate].
  destruct (n =? ""); cbn [negb andb]; [discriminate|].
  destruct (Py.str_in "/" n) eqn:Es; cbn [negb]; [discriminate|].
  intros H. injection H as <-. split; [|exact Es].
  apply strip_prefix_inv in E. exact E.
Qed.

Lemma entry_name_archive (name : string) :
  Os.entry_name DOCS_TO_PROCESS_DIR ("processed_documents/" ++ name) = None.
Proof. reflexivity. Qed.

Lemma listdir_remove_outside (d q : string) (f : FS) :
  Os.entry_name d q = None -> Os.listdir d (Os.remove q f) = Os.listdir d f.
Proof.
  intros H. unfold Os.listdir, Os.remove.
  induction f as [|[k n] f IH]; [reflexivity|]. cbn [filter flat_map fst].
  destruct (k =? q) eqn:E; cbn [negb flat_map fst].
  - apply String.eqb_eq in E. subst k. rewrite H. exact IH.
  - rewrite IH. reflexivity.
Qed.

Lemma listdir_remove_entry (name : string) (f : FS) :
  Os.listdir DOCS_TO_PROCESS_DIR (Os.remove ("documents_to_process/" ++ name) f) =
  filter (fun m => negb (m =? name)) (Os.listdir DOCS_TO_PROCESS_DIR f).
Proof.
  unfold Os.listdir, Os.remove.
  induction f as [|[k n] f IH]; [reflexivity|]. cbn [filter flat_map fst].
  destruct (Os.entry_name DOCS_TO_PROCESS_DIR k) as [m|] eqn:Em.
  - destruct (entry_name_inv _ _ _ Em) as (Hk & _).
    change ((DOCS_TO_PROCESS_DIR ++ "/") ++ m) with ("documents_to_process/" ++ m) in Hk.
    destruct (k =? "documents_to_process/" ++ name) eqn:E; cbn [negb flat_map fst app filter].
    + apply String.eqb_eq in E. rewrite E in Hk. apply docs_path_inj in Hk. subst m.
      rewrite String.eqb_refl. cbn [negb]. exact IH.
    + rewrite Em. cbn [app filter].
      destruct (m =? name) eqn:E'.
      * apply String.eqb_eq in E'. subst m. rewrite Hk, String.eqb_refl in E. discriminate.
      * cbn [negb]. rewrite IH. reflexivity.
  - destruct (k =? "documents_to_process/" ++ name) eqn:E; cbn [negb flat_map fst app filter].
    + exact IH.
    + rewrite Em. exact IH.
Qed.

Lemma rename_shape (src dst : string) (f f' : FS) :
  src <> dst -> Os.rename src dst f = inl f' ->
  exists size content,
    f' = (Os.remove src (Os.remove dst f) ++ [(dst, RegularFile size content)])%list.
Proof.
  intros Hne. apply String.eqb_neq in Hne. unfold Os.rename.
  destruct (Os.lookup src f) as [[size content|]|]; try discriminate.
  destruct (Os.lookup dst f) as [[? ?|]|]; try discriminate; rewrite Hne;
    intros H; injection H as <-; exists size, content; reflexivity.
Qed.

Lemma filter_filter_comm {A : Type} (p q : A -> bool) (l : list A) :
  filter p (filter q l) = filter q (filter p l).
Proof.
  induction l as [|a l IH]; [reflexivity|]. cbn [filter].
  destruct (q a) eqn:Eq, (p a) eqn:Ep; cbn [filter]; rewrite ?Eq, ?Ep, IH; reflexivity.
Qed.

(** Moving the file [name] out of the intake directory removes that name
    from the regular files listed there and no other. *)
Lemma intake_after_move (name : string) (f f' : FS) :
  Py.str_in "/" name = false ->
  Os.rename (intake_path name) (archive_path name) f = inl f' ->
  intake_files f' = filter (fun m => negb (m =? name)) (intake_files f).
Proof.
  intros Hs Hr. unfold intake_path, archive_path in Hr.
  rewrite (docs_path _ Hs), (processed_path _ Hs) in Hr.
  destruct (rename_shape _ _ _ _ (src_not_dst name) Hr) as (size & content & Hf).
  destruct (rename_moves _ _ _ _ (src_not_dst name) Hr) as (_ & _ & Hframe).
  assert (Hl : Os.listdir DOCS_TO_PROCESS_DIR f' =
               filter (fun m => negb (m =? name)) (Os.listdir DOCS_TO_PROCESS_DIR f)).
  { rewrite Hf. unfold Os.listdir at 1. rewrite flat_map_app.
    cbn [flat_map fst]. rewrite entry_name_archive. cbn [app]. rewrite app_nil_r.
    fold (Os.listdir DOCS_TO_PROCESS_DIR
            (Os.remove ("documents_to_process/" ++ name)
                       (Os.remove ("processed_documents/" ++ name) f))).
    rewrite listdir_remove_entry, listdir_remove_outside by apply entry_name_archive.
    reflexivity. }
  unfold intake_files. rewrite Hl.
  rewrite (filter_filter_comm (fun m => negb (m =? name))).
  apply filter_ext_in. intros m Hm. apply filter_In in Hm. destruct Hm as (Hm & Hne).
  destruct (listdir_names _ _ _ Hm) as (Hsm & _).
  unfold Os.isfile. rewrite (docs_path _ Hsm). rewrite Hframe; [reflexivity| |].
  - intros H. apply docs_path_inj in H. subst m. rewrite String.eqb_refl in Hne. discriminate.
  - cbn [append]. discriminate.
Qed.

(** What one iteration does to the file system and prints as initial
    events, by the first regular file of the intake directory. *)
Lemma cycle_effect (w : World) :
  exists w' out,
    cycle the_ingestor w = (Ok tt, w') /\
    console w' = (console w ++ out)%list /\
    match intake_files (fs w) with
    | [] => fs w' = fs w /\ dumps "Initial Event:" out = []
    | first :: _ =>
        Py.str_in "/" first = false /\
        Os.isfile (intake_path first) (fs w) = true /\
        map filename (dumps "Initial Event:" out) = [first] /\
        match Os.rename (intake_path first) (archive_path first) (fs w) with
        | inl f => fs w' = f
        | inr _ => fs w' = fs w
        end
    end.
Proof.
  destruct (cycle_run w) as (r & out & R & HF & C). cbv zeta in R, C.
  pose proof (ingestor_first _ _ _ R) as Hfirst.
  destruct r as [ev|].
  - destruct C as (w' & P & C). rewrite C.
    destruct (ingested _ _ _ R) as (_ & _ & _ & Hs & Hp & Hf). cbn [fs] in Hf.
    destruct (intake_files (fs w)) as [|first others]; [discriminate Hfirst|].
    cbn [option_map hd_error] in Hfirst. injection Hfirst as Hname.
    destruct (process_run ev (mkWorld (fs w) (console w ++ out)%list (clock w) (rng w)))
      as (ev' & pipe & arch & f' & c & r & P' & _ & HFp & _ & Ha & Hr).
    rewrite P' in P. injection P as <-. cbn [fs console clock rng] in *.
    destruct (process_lines_dumps ev ev' out pipe arch _ _ HF HFp Ha) as (Hd1 & _).
    do 2 eexists. split; [reflexivity|]. cbn [console fs].
    split; [rewrite <- app_assoc; reflexivity|].
    subst first. split; [exact Hs|].
    unfold intake_path, archive_path. rewrite (docs_path _ Hs), <- Hp.
    split; [exact Hf|]. split; [unfold dumps; rewrite Hd1; reflexivity|].
    destruct (Os.rename (original_path ev) _ (fs w)); apply Hr.
  - rewrite C. destruct (intake_files (fs w)); [|discriminate Hfirst].
    do 2 eexists. split; [reflexivity|]. cbn [console fs]. split; [reflexivity|].
    split; [reflexivity|]. apply (steps_no_dump _ _ _ HF).
Qed.

Lemma archive_path_inj (a b : string) :
  Py.str_in "/" a = false -> Py.str_in "/" b = false ->
  archive_path a = archive_path b -> a = b.
Proof.
  intros Ha Hb. unfold archive_path. rewrite (processed_path _ Ha), (processed_path _ Hb).
  cbn [append]. congruence.
Qed.

Lemma intake_names (f : FS) (name : string) :
  In name (intake_files f) ->
  Py.str_in "/" name = false /\ Os.isfile (intake_path name) f = true.
Proof.
  unfold intake_files. intros H. apply filter_In in H. destruct H as (Hl & Hi).
  destruct (listdir_names _ _ _ Hl) as (Hs & _). split; [exact Hs | exact Hi].
Qed.

Lemma intake_not_archive (a b : string) :
  Py.str_in "/" a = false -> Py.str_in "/" b = false -> intake_path a <> archive_path b.
Proof.
  intros Ha Hb. unfold intake_path, archive_path.
  rewrite (docs_path _ Ha), (processed_path _ Hb). cbn [append]. discriminate.
Qed.

Lemma intake_path_inj (a b : string) :
  Py.str_in "/" a = false -> Py.str_in "/" b = false ->
  intake_path a = intake_path b -> a = b.
Proof.
  intros Ha Hb. unfold intake_path. rewrite (docs_path _ Ha), (docs_path _ Hb).
  apply docs_path_inj.
Qed.

Lemma loop_drains_aux (k : nat) :
  forall w,
    (List.length (intake_files (fs w)) <= k)%nat ->
    no_collision (fs w) ->
    exists w',
      loop the_ingestor k w = (Ok tt, w') /\
      intake_files (fs w') = [] /\
      (forall name, In name (intake_files (fs w)) ->
         Os.lookup (intake_path name) (fs w') = None /\
         Os.lookup (archive_path name) (fs w') = Os.lookup (intake_path name) (fs w)) /\
      (forall path,
         (forall name, In name (intake_files (fs w)) ->
            path <> intake_path name /\ path <> archive_path name) ->
         Os.lookup path (fs w') = Os.lookup path (fs w)).
Proof.
  induction k as [|k IH]; intros w Hlen Hnc; unfold no_collision in Hnc.
  - destruct (intake_files (fs w)) eqn:Ei; [|cbn in Hlen; lia].
    cbn [loop]. run_monad. eexists. split; [reflexivity|]. cbn [fs].
    split; [exact Ei|]. split; [intros n []|]. reflexivity.
  - cbn [loop]. unfold bind.
    destruct (cycle_effect w) as (w1 & out & C & _ & E). rewrite C.
    destruct (intake_files (fs w)) as [|first others] eqn:Ei.
    + destruct E as (Hfs & _).
      destruct (IH w1) as (w' & L & Hd & _ & Hfr).
      { rewrite Hfs, Ei. cbn. lia. }
      { unfold no_collision. rewrite Hfs, Ei. intros n []. }
      exists w'. split; [exact L|]. split; [exact Hd|]. split; [intros n []|].
      intros p _. rewrite <- Hfs. apply Hfr. rewrite Hfs, Ei. intros n [].
    + destruct E as (Hs & Hf & _ & Hr).
      pose proof (rename_result _ (archive_path first) _ Hf) as Hres.
      assert (Hnd : Os.lookup (archive_path first) (fs w) <> Some Directory)
        by (apply Hnc; left; reflexivity).
      destruct (Os.rename (intake_path first) (archive_path first) (fs w)) as [f1|e] eqn:Er.
      2:{ exfalso. destruct (Os.lookup (archive_path first) (fs w)) as [[? ?|]|];
            try (destruct Hres as (f0 & Hres); discriminate Hres).
          apply Hnd. reflexivity. }
      pose proof (intake_after_move _ _ _ Hs Er) as Hin. rewrite Ei in Hin.
      rewrite <- Hr in Hin, Er.
      destruct (rename_moves _ _ _ _ (intake_not_archive _ _ Hs Hs) Er) as (M1 & M2 & M3).
      assert (Hsub : forall n, In n (intake_files (fs w1)) -> In n others /\ n <> first).
      { intros n Hn. rewrite Hin in Hn. cbn [filter] in Hn.
        rewrite String.eqb_refl in Hn. cbn [negb] in Hn.
        apply filter_In in Hn. destruct Hn as (Hn & Hne). split; [exact Hn|].
        intros ->. rewrite String.eqb_refl in Hne. discriminate. }
      assert (Hval : forall n, In n others -> Py.str_in "/" n = false).
      { intros n Hn. apply (intake_names (fs w)). rewrite Ei. right. exact Hn. }
      destruct (IH w1) as (w' & L & Hd & Hmv & Hfr).
      { rewrite Hin. cbn [filter]. rewrite String.eqb_refl. cbn [negb].
        pose proof (filter_length_le (fun m => negb (m =? first)) others).
        cbn [List.length] in Hlen. lia. }
      { unfold no_collision. intros n Hn. destruct (Hsub n Hn) as (Ho & Hne).
        rewrite M3.
        - apply Hnc. right. exact Ho.
        - intros H. symmetry in H. exact (intake_not_archive _ _ Hs (Hval n Ho) H).
        - intros H. apply Hne. apply archive_path_inj; auto. }
      exists w'. split; [exact L|]. split; [exact Hd|]. split.
      * intros n [<-|Hn].
        -- assert (Hout : forall m, In m (intake_files (fs w1)) ->
                     forall p, (p = intake_path first \/ p = archive_path first) ->
                     p <> intake_path m /\ p <> archive_path m).
           { intros m Hm p Hp. destruct (Hsub m Hm) as (Ho & Hne).
             pose proof (Hval m Ho) as Hvm.
             destruct Hp as [-> | ->]; split.
             - intros H. apply Hne. symmetry. apply intake_path_inj; auto.
             - apply intake_not_archive; auto.
             - intros H. symmetry in H. exact (intake_not_archive _ _ Hvm Hs H).
             - intros H. apply Hne. symmetry. apply archive_path_inj; auto. }
           split.
           ++ rewrite Hfr; [exact M1|]. intros m Hm. apply (Hout m Hm). left. reflexivity.
           ++ rewrite Hfr; [exact M2|]. intros m Hm. apply (Hout m Hm). right. reflexivity.
        -- destruct (string_dec n first) as [->|Hne].
           ++ (* a name listed twice: handled as the first *)
              assert (Hout : forall m, In m (intake_files (fs w1)) ->
                     forall p, (p = intake_path first \/ p = archive_path first) ->
                     p <> intake_path m /\ p <> archive_path m).
              { intros m Hm p Hp. destruct (Hsub m Hm) as (Ho & Hne).
                pose proof (Hval m Ho) as Hvm.
                destruct Hp as [-> | ->]; split.
                - intros H. apply Hne. symmetry. apply intake_path_inj; auto.
                - apply intake_not_archive; auto.
                - intros H. symmetry in H. exact (intake_not_archive _ _ Hvm Hs H).
                - intros H. apply Hne. symmetry. apply archive_path_inj; auto. }
              split.
              ** rewrite Hfr; [exact M1|]. intros m Hm. apply (Hout m Hm). left. reflexivity.
              ** rewrite Hfr; [exact M2|]. intros m Hm. apply (Hout m Hm). right. reflexivity.
           ++ assert (Hn1 : In n (intake_files (fs w1))).
              { rewrite Hin. cbn [filter]. rewrite String.eqb_refl. cbn [negb].
                apply filter_In. split; [exact Hn|].
                apply String.eqb_neq in Hne. rewrite Hne. reflexivity. }
              destruct (Hmv n Hn1) as (H1 & H2). split; [exact H1|].
              rewrite H2. apply M3.
              ** intros H. apply Hne. apply intake_path_inj; auto.
              ** apply intake_not_archive; auto.
      * intros p Hp. rewrite Hfr.
        -- apply M3; apply Hp; left; reflexivity.
        -- intros m Hm. apply Hp. right. apply (Hsub m Hm).
Qed.

(** X9: the loop drains the intake directory.  When both directories exist
    and no directory stands where a waiting file is to go, then after as
    many iterations as there are regular files waiting (or more) no
    regular file is left in the intake directory; every file that was
    waiting, readable or not, is at its path in the processed directory
    with size and content unchanged; and no other path of the file system
    has changed. *)
Theorem loop_drains_intake (w : World) (k : nat) :
  Os.lookup DOCS_TO_PROCESS_DIR (fs w) = Some Directory ->
  Os.lookup PROCESSED_DOCS_DIR (fs w) = Some Directory ->
  no_collision (fs w) ->
  (List.length (intake_files (fs w)) <= k)%nat ->
  exists w',
    loop the_ingestor k w = (Ok tt, w') /\
    intake_files (fs w') = [] /\
    (forall name, In name (intake_files (fs w)) ->
       Os.lookup (intake_path name) (fs w') = None /\
       Os.lookup (archive_path name) (fs w') = Os.lookup (intake_path name) (fs w)) /\
    (forall path,
       (forall name, In name (intake_files (fs w)) ->
          path <> intake_path name /\ path <> archive_path name) ->
       Os.lookup path (fs w') = Os.lookup path (fs w)).
Proof.
  intros _ _ Hnc Hlen. apply loop_drains_aux; assumption.
Qed.

Lemma backlog_no_collision : no_collision (fs backlog_world).
Proof.
  intros name Hn. change (intake_files (fs backlog_world)) with ["a.txt"; "c.txt"] in Hn.
  destruct Hn as [<-|[<-|[]]]; discriminate.
Qed.

Lemma loop_drains_intake_witness :
  exists w',
    loop the_ingestor 2 backlog_world = (Ok tt, w') /\
    intake_files (fs w') = [] /\
    (forall name, In name (intake_files (fs backlog_world)) ->
       Os.lookup (intake_path name) (fs w') = None /\
       Os.lookup (archive_path name) (fs w') =
         Os.lookup (intake_path name) (fs backlog_world)) /\
    (forall path,
       (forall name, In name (intake_files (fs backlog_world)) ->
          path <> intake_path name /\ path <> archive_path name) ->
       Os.lookup path (fs w') = Os.lookup path (fs backlog_world)).
Proof.
  apply (loop_drains_intake backlog_world 2).
  - reflexivity.
  - reflexivity.
  - exact backlog_no_collision.
  - apply le_n.
Defined.

(** X10: a file that cannot be moved blocks the queue.  When a directory
    stands where the first waiting file is to go, every iteration claims
    that same file again, runs it through the pipeline again and fails to
    move it: after any number of iterations the file system is unchanged,
    so the files listed behind it are never claimed. *)
Theorem blocked_file_is_retried (w : World) (first : string) (others : list string)
        (k : nat) :
  intake_files (fs w) = first :: others ->
  Os.lookup (archive_path first) (fs w) = Some Directory ->
  exists w' out,
    loop the_ingestor k w = (Ok tt, w') /\
    fs w' = fs w /\
    console w' = (console w ++ out)%list /\
    map filename (dumps "Initial Event:" out) = repeat first k.
Proof.
  revert w. induction k as [|k IH]; intros w Hi Hd.
  - cbn [loop]. run_monad. do 2 eexists. split; [reflexivity|]. cbn [fs console].
    split; [reflexivity|]. split; reflexivity.
  - cbn [loop]. unfold bind.
    destruct (cycle_effect w) as (w1 & out & C & Hc & E). rewrite C. rewrite Hi in E.
    destruct E as (_ & Hf & Hm & Hr).
    pose proof (rename_result _ (archive_path first) _ Hf) as Hres. rewrite Hd in Hres.
    destruct Hres as (e & Hres). rewrite Hres in Hr.
    destruct (IH w1) as (w' & out' & L & Hfs & Hc' & Hm').
    { rewrite Hr. exact Hi. }
    { rewrite Hr. exact Hd. }
    exists w', (out ++ out')%list. split; [exact L|].
    split; [rewrite Hfs; exact Hr|].
    split; [rewrite Hc', Hc, app_assoc; reflexivity|].
    unfold dumps in *. rewrite flat_map_app, map_app, Hm, Hm'. reflexivity.
Qed.

Lemma blocked_file_is_retried_witness :
  exists w' out,
    loop the_ingestor 3 blocked_world = (Ok tt, w') /\
    fs w' = fs blocked_world /\
    console w' = (console blocked_world ++ out)%list /\
    map filename (dumps "Initial Event:" out) = repeat "a.txt" 3.
Proof.
  apply (blocked_file_is_retried blocked_world "a.txt" ["c.txt"] 3); reflexivity.
Defined.



Lemma extractor_clock (ev : Event) (w : World) (text : string) :
  source_text ev (fs w) = inl text ->
  exists ev' w', ExtractorAgent.run ev w = (Ok ev', w') /\ clock w' = clock w + 3.
Proof.
  unfold source_text, ExtractorAgent.run. intros H.
  destruct (Py.endswith (original_path ev) ".txt").
  - run_monad. rewrite H. run_monad.
    match goal with
    | |- context [mock_llm_entity_extraction ?t ?w1] =>
        destruct (service_draws t w1) as (d & w' & n & amount & S & _ & _ & _ & _ & _ & _ & Hc & _)
    end.
    rewrite S. run_monad. do 2 eexists. split; [reflexivity|]. cbn [clock] in *. lia.
  - run_monad.
    match goal with
    | |- context [mock_llm_entity_extraction ?t ?w1] =>
        destruct (service_draws t w1) as (d & w' & n & amount & S & _ & _ & _ & _ & _ & _ & Hc & _)
    end.
    rewrite S. run_monad. do 2 eexists. split; [reflexivity|]. cbn [clock] in *. lia.
Qed.

(** X12: simulated latency.  The pipeline advances the clock by exactly
    five seconds on an event whose source resolves, and not at all on one
    whose source cannot be read; archival takes no time. *)
Theorem pipeline_duration (ev : Event) (w : World) :
  exists ev' w',
    run_pipeline ev w = (Ok ev', w') /\
    clock w' = clock w + pipeline_seconds ev (fs w) /\
    (status ev' = "ROUTED" -> clock w' = clock w + 5) /\
    (status ev' = "EXTRACTION_FAILED" -> clock w' = clock w).
Proof.
  unfold pipeline_seconds.
  destruct (source_text ev (fs w)) as [text|e] eqn:Es.
  - destruct (pipeline_ok ev w text Es)
      as (e1 & w1 & e2 & w2 & e3 & w3 & d & x & action & out &
          E1 & -> & E2 & -> & E3 & -> & R & _).
    destruct (extractor_clock ev w text Es) as (e1' & w1' & E1' & Hc1).
    rewrite E1 in E1'. apply (f_equal snd) in E1'. cbn [snd] in E1'. subst w1'.
    pose proof (classifier_run (extracted text d ev) w1) as C. cbv zeta in C.
    rewrite C in E2. apply (f_equal snd) in E2. cbn [snd] in E2. subst w2.
    match type of E3 with RouterAgent.run ?e ?w2 = _ =>
      destruct (router_run_ok e w2) as (a' & out' & E3' & _)
    end.
    { intros _. discriminate. }
    rewrite E3' in E3. apply (f_equal snd) in E3. cbn [snd] in E3. subst w3.
    do 2 eexists. split; [exact R|]. cbn [clock].
    split; [lia|]. split; [intros _; lia|]. intros H. discriminate H.
  - destruct (pipeline_failed ev w e Es) as (R & E). rewrite R, E.
    do 2 eexists. split; [reflexivity|]. cbn [clock].
    split; [lia|]. split; [intros H; discriminate H | reflexivity].
Qed.




